(** * The project board (src/app.ts): store, validator, form and lists

    A shallow embedding of [src/app.ts] and the properties of its
    specification.  The program is a TypeScript browser application: a
    singleton store of projects with listeners ([ProjectState]), a
    validator ([validate]), a form ([ProjectInput]) and two lists
    ([ProjectList]) that render the projects ([ProjectItem]).

    Conventions of the embedding:
    - a JavaScript string is the list of its UTF-16 code units;
    - a JavaScript number is its exact value ([NaN], the two infinities or
      a rational), with [+0] and [-0] identified: the program only compares
      numbers and prints them, and neither tells the two zeros apart;
    - arrays that the program shares by reference (the store's [projects]
      array and the copies it hands to listeners) live in a heap and are
      named by their location; [push] updates an array in place, [slice]
      allocates;
    - what the JavaScript runtime computes with binary64 rounding (parsing
      a decimal literal, printing a number that is no safe integer) is a
      parameter of the development. *)

From Stdlib Require Import ZArith QArith Ascii String DecimalString Lia.
From Stdlib Require Qcanon.
From stdpp Require Import base list.

Close Scope Q_scope.
Local Open Scope nat_scope.
Local Open Scope list_scope.

(** ** JavaScript strings *)

Module JsString.

Definition jsstring : Type := list N.

(** The code units of an ASCII literal. *)
Definition js (s : string) : jsstring :=
  List.map N_of_ascii (list_ascii_of_string s).
Arguments js s%_string : simpl never.

(** [WhiteSpace] and [LineTerminator] of ECMAScript: what
    [String.prototype.trim] strips. *)
Definition isWhiteSpace (c : N) : bool :=
  existsb (N.eqb c)
    [9; 10; 11; 12; 13; 32; 160; 5760;
     8192; 8193; 8194; 8195; 8196; 8197; 8198; 8199; 8200; 8201; 8202;
     8232; 8233; 8239; 8287; 12288; 65279]%N.

Fixpoint trimStart (s : jsstring) : jsstring :=
  match s with
  | c :: s' => if isWhiteSpace c then trimStart s' else s
  | [] => []
  end.

Definition trimEnd (s : jsstring) : jsstring :=
  rev (trimStart (rev s)).

Definition trim (s : jsstring) : jsstring :=
  trimEnd (trimStart s).

(** Truthiness of a string: every string but the empty one. *)
Definition truthy (s : jsstring) : bool :=
  match s with [] => false | _ => true end.

End JsString.
Export JsString.

(** ** JavaScript numbers *)

Module JsNumber.

Inductive number : Type :=
| NaN
| PInf
| NInf
| Fin (q : Q).

Definition ofZ (z : Z) : number := Fin (inject_Z z).
Definition ofNat (n : nat) : number := ofZ (Z.of_nat n).

(** The abstract relational comparison [IsLessThan] on numbers:
    [None] is the "undefined" answer given when an operand is [NaN]. *)
Definition IsLessThan (x y : number) : option bool :=
  match x, y with
  | NaN, _ | _, NaN => None
  | PInf, _ => Some false
  | _, PInf => Some true
  | _, NInf => Some false
  | NInf, _ => Some true
  | Fin a, Fin b => Some (negb (Qle_bool b a))
  end.

(** [x < y], [x > y], [x <= y], [x >= y] *)
Definition num_lt (x y : number) : bool :=
  match IsLessThan x y with Some true => true | _ => false end.
Definition num_gt (x y : number) : bool :=
  match IsLessThan y x with Some true => true | _ => false end.
Definition num_le (x y : number) : bool :=
  match IsLessThan y x with Some false => true | _ => false end.
Definition num_ge (x y : number) : bool :=
  match IsLessThan x y with Some false => true | _ => false end.

(** [x === y] on numbers *)
Definition strictEq (x y : number) : bool :=
  match x, y with
  | PInf, PInf | NInf, NInf => true
  | Fin a, Fin b => Qeq_bool a b
  | _, _ => false
  end.

Definition MAX_SAFE_INTEGER : Z := 2 ^ 53 - 1.

(** The integer a finite number is, when it is a safe integer. *)
Definition safeInteger (q : Q) : option Z :=
  let r := Qred q in
  if (Qden r =? 1)%positive && (Z.abs (Qnum r) <=? MAX_SAFE_INTEGER)%Z
  then Some (Qnum r) else None.

Definition decimal (z : Z) : jsstring :=
  js (NilZero.string_of_int (Z.to_int z)).

Section Runtime.

(** [Number::toString] on a finite number that is no safe integer
    (shortest digits that round back to the binary64 value). *)
Variable toString_other : Q -> jsstring.

(** [StringToNumber] on a string that is neither blank nor a run of at
    most fifteen decimal digits (decimal literals are rounded to
    binary64). *)
Variable ToNumber_other : jsstring -> number.

(** [x.toString()], also the conversion in a template literal. *)
Definition toString (x : number) : jsstring :=
  match x with
  | NaN => js "NaN"
  | PInf => js "Infinity"
  | NInf => js "-Infinity"
  | Fin q =>
      match safeInteger q with
      | Some z => decimal z
      | None => toString_other q
      end
  end.

Definition digitValue (c : N) : option Z :=
  if (48 <=? c)%N && (c <=? 57)%N then Some (Z.of_N c - 48)%Z else None.

Fixpoint digits (acc : Z) (s : jsstring) : option Z :=
  match s with
  | [] => Some acc
  | c :: s' =>
      match digitValue c with
      | Some d => digits (10 * acc + d)%Z s'
      | None => None
      end
  end.

(** Unary plus on a string, [+s]. *)
Definition ToNumber (s : jsstring) : number :=
  let t := trim s in
  match t with
  | [] => ofZ 0
  | _ =>
      match digits 0 t with
      | Some z => if List.length t <=? 15 then ofZ z else ToNumber_other s
      | None => ToNumber_other s
      end
  end.

End Runtime.

(** A stand-in for the two roundings, for examples on safe integers and
    short numerals, where the rounding is never consulted. *)
Definition unrounded_toString : Q -> jsstring := fun _ => js "?".
Definition unrounded_ToNumber : jsstring -> number := fun _ => NaN.

End JsNumber.
Export JsNumber.

(** ** The program *)

Section Program.

(** The two conversions of the runtime that round to binary64. *)
Variable toString_other : Q -> jsstring.
Variable ToNumber_other : jsstring -> number.

Local Abbreviation toString := (JsNumber.toString toString_other).
Local Abbreviation ToNumber := (JsNumber.ToNumber ToNumber_other).

(** *** Data model (lines 11-25) *)

Inductive ProjectStatus : Type :=
| Active
| Finished.

Definition ProjectStatus_eqb (a b : ProjectStatus) : bool :=
  match a, b with
  | Active, Active | Finished, Finished => true
  | _, _ => false
  end.

Record Project : Type := mkProject {
  id : jsstring;
  title : jsstring;
  description : jsstring;
  people : number;
  status : ProjectStatus;
}.

(** *** The validator (lines 72-119) *)

(** [string | number] *)
Inductive StringOrNumber : Type :=
| Str (s : jsstring)
| Num (n : number).

(** Every field of [Validatable] is optional: [None] is [undefined]. *)
Record Validatable : Type := mkValidatable {
  value : option StringOrNumber;
  required : option bool;
  minLength : option number;
  maxLength : option number;
  min : option number;
  max : option number;
}.

(** [value?.toString()] *)
Definition value_toString (v : option StringOrNumber) : option jsstring :=
  match v with
  | None => None
  | Some (Str s) => Some s
  | Some (Num n) => Some (toString n)
  end.

(** [a || ""] for [a] a string or [undefined] *)
Definition orEmpty (a : option jsstring) : jsstring :=
  match a with
  | Some s => if truthy s then s else []
  | None => []
  end.

Definition validate (validatableInput : Validatable) : bool :=
  let isValid := true in
  let stringValue := orEmpty (value_toString (value validatableInput)) in
  let isValid :=
    match required validatableInput with
    | Some true =>
        isValid && negb (List.length (trim stringValue) =? 0)
    | _ => isValid
    end in
  let isValid :=
    match minLength validatableInput, value validatableInput with
    | Some minLength, Some (Str _) =>
        isValid && num_gt (ofNat (List.length stringValue)) minLength
    | _, _ => isValid
    end in
  let isValid :=
    match maxLength validatableInput, value validatableInput with
    | Some maxLength, Some (Str _) =>
        isValid && num_gt (ofNat (List.length stringValue)) maxLength
    | _, _ => isValid
    end in
  let isValid :=
    match min validatableInput, value validatableInput with
    | Some min, Some (Num value) => isValid && num_ge value min
    | _, _ => isValid
    end in
  let isValid :=
    match max validatableInput, value validatableInput with
    | Some max, Some (Num value) => isValid && num_le value max
    | _, _ => isValid
    end in
  isValid.

(** *** Arrays of projects, shared by reference *)

Definition loc : Type := nat.

(** The arrays of [Project] allocated so far; a location is an index.
    References of the program never dangle: a location that is not
    allocated reads as the empty array and ignores updates. *)
Definition Heap : Type := list (list Project).

Definition Array_contents (h : Heap) (r : loc) : list Project :=
  default [] (h !! r).

(** *** What the user sees *)

(** A rendered project (class [ProjectItem], lines 181-220): the [li]
    element with the three texts [renderContent] writes.  [element_id] is
    the id the constructor of [Component] assigns, [None] when it leaves
    the id of the template. *)
Record ProjectItem : Type := mkProjectItem {
  project : Project;
  element_id : option jsstring;
  h2_textContent : jsstring;
  h3_textContent : jsstring;
  p_textContent : jsstring;
}.

(** The literal union ["active" | "finished"]. *)
Inductive ListType : Type :=
| active
| finished.

(** A list of the board (class [ProjectList], lines 222-291): [listEl] is
    the children of its [ul] element, [droppable] whether the class list
    of the [ul] holds the token [droppable]. *)
Record ProjectList : Type := mkProjectList {
  type : ListType;
  assignedProjects : list Project;
  listEl : list ProjectItem;
  droppable : bool;
}.

(** The form (class [ProjectInput], lines 293-368): the [value] of each of
    its three input elements. *)
Record ProjectInput : Type := mkProjectInput {
  titleInputElement : jsstring;
  descriptionInputElement : jsstring;
  peopleInputElement : jsstring;
}.

Record UI : Type := mkUI {
  projectInput : ProjectInput;
  projectLists : list ProjectList;
  alerts : list jsstring;
}.

(** *** The store (lines 25-70) *)

(** [Listener<Project>]: a callback called with (a reference to) an array.
    It reads the arrays and acts on the user interface; like the listeners
    of the program (lines 272-282) it neither writes into an array nor
    calls the store. *)
Definition Listener : Type := loc -> Heap -> UI -> UI.

Record ProjectState : Type := mkProjectState {
  listeners : list Listener;
  projects : loc;
}.

(** The whole state of the page.  [calls] is an observation log, not a
    variable of the program: one entry per call of a listener, with the
    position of the listener in the registration order, the reference it
    was handed and the contents of that array at the call.  [entropy] and
    [drawn] are the values [Math.random] yields and how many were drawn. *)
Record World : Type := mkWorld {
  heap : Heap;
  projectState : ProjectState;
  ui : UI;
  calls : list (nat * loc * list Project);
  entropy : nat -> Q;
  drawn : nat;
}.

Definition M (A : Type) : Type := World -> A * World.

Definition ret {A : Type} (a : A) : M A := fun w => (a, w).

Definition bind {A B : Type} (m : M A) (k : A -> M B) : M B :=
  fun w => let (a, w') := m w in k a w'.

Notation "x <- m ;; k" := (bind m (fun x => k))
  (at level 100, m at next level, right associativity).
Notation "m ;;; k" := (bind m (fun _ => k))
  (at level 100, right associativity).

Definition exec {A : Type} (m : M A) (w : World) : World := snd (m w).

Definition set_heap (f : Heap -> Heap) : M unit := fun w =>
  (tt, mkWorld (f (heap w)) (projectState w) (ui w) (calls w)
         (entropy w) (drawn w)).

Definition set_ui (f : UI -> UI) : M unit := fun w =>
  (tt, mkWorld (heap w) (projectState w) (f (ui w)) (calls w)
         (entropy w) (drawn w)).

Definition get {A : Type} (f : World -> A) : M A := fun w => (f w, w).

(** [Math.random()] *)
Definition Math_random : M number := fun w =>
  (Fin (entropy w (drawn w)),
   mkWorld (heap w) (projectState w) (ui w) (calls w)
     (entropy w) (S (drawn w))).

(** [a.push(x)]: the array at [a] grows in place. *)
Definition Array_push (a : loc) (x : Project) : M unit :=
  set_heap (alter (fun items => items ++ [x]) a).

(** [a.slice()]: a new array with the same elements. *)
Definition Array_slice (a : loc) : M loc := fun w =>
  (List.length (heap w),
   mkWorld (heap w ++ [Array_contents (heap w) a]) (projectState w)
     (ui w) (calls w) (entropy w) (drawn w)).

(** [listenerFn(items)], by the listener registered at position [i]. *)
Definition call (i : nat) (listenerFn : Listener) (items : loc) : M unit :=
  fun w =>
  (tt, mkWorld (heap w) (projectState w) (listenerFn items (heap w) (ui w))
         (calls w ++ [(i, items, Array_contents (heap w) items)])
         (entropy w) (drawn w)).

(** [for (const x of xs) body], [i] the position of the next element. *)
Fixpoint forOf {A : Type} (i : nat) (xs : list A) (body : nat -> A -> M unit)
  : M unit :=
  match xs with
  | [] => ret tt
  | x :: xs' => body i x ;;; forOf (S i) xs' body
  end.

(** [State.addListener] (lines 30-32) *)
Definition addListener (listenerFn : Listener) : M unit := fun w =>
  (tt, mkWorld (heap w)
         (mkProjectState (listeners (projectState w) ++ [listenerFn])
            (projects (projectState w)))
         (ui w) (calls w) (entropy w) (drawn w)).

(** [ProjectState.addProject] (lines 53-67).  The loop runs over the
    listeners registered when it starts: a listener registers no other. *)
Definition addProject (title description : jsstring) (people : number)
  : M unit :=
  r <- Math_random ;;
  let newProject := mkProject (toString r) title description people Active in
  this_projects <- get (fun w => projects (projectState w)) ;;
  Array_push this_projects newProject ;;;
  this_listeners <- get (fun w => listeners (projectState w)) ;;
  forOf 0 this_listeners (fun i listenerFn =>
    items <- Array_slice this_projects ;;
    call i listenerFn items).

(** *** Rendered projects (lines 181-220) *)

(** The getter [persons] (lines 187-191) *)
Definition persons (this : ProjectItem) : jsstring :=
  if strictEq (people (project this)) (ofZ 1)
  then js "1 Person"
  else toString (people (project this)) ++ js " Persons".

(** [renderContent] (lines 215-219) *)
Definition ProjectItem_renderContent (this : ProjectItem) : ProjectItem :=
  mkProjectItem (project this) (element_id this)
    (title (project this))
    (persons this ++ js " assigned")
    (description (project this)).

(** [new ProjectItem(hostId, project)] (lines 193-199, with the constructor
    of [Component], lines 145-167): the element is cloned from the
    template, takes the id of the project if that is a truthy string, and
    gets its texts.  [configure] only registers the drag handlers. *)
Definition new_ProjectItem (project : Project) : ProjectItem :=
  let this :=
    mkProjectItem project
      (if truthy (id project) then Some (id project) else None)
      [] [] [] in
  ProjectItem_renderContent this.

(** What a drag event carries: the entries of its [dataTransfer], by
    format, and the allowed effect. *)
Record DataTransfer : Type := mkDataTransfer {
  items : list (jsstring * jsstring);
  effectAllowed : jsstring;
}.

Record DragEvent : Type := mkDragEvent {
  dataTransfer : option DataTransfer;
}.

(** [dataTransfer.types]: the formats of the entries, in their order. *)
Definition types (d : DataTransfer) : list jsstring :=
  List.map fst (items d).

(** A string in ASCII lowercase. *)
Definition asciiLowercase (s : jsstring) : jsstring :=
  List.map (fun c => if (65 <=? c)%N && (c <=? 90)%N then (c + 32)%N else c)
    s.

(** [dataTransfer.setData(format, data)], as the HTML standard has it for
    a data transfer that can be written (the one of a [dragstart] event):
    the format is put in lowercase, [text] and [url] stand for
    [text/plain] and [text/uri-list]; the entry of that format, if there
    is one, is removed, and the new entry is added at the end. *)
Definition setData (format data : jsstring) (d : DataTransfer)
  : DataTransfer :=
  let format := asciiLowercase format in
  let format :=
    if bool_decide (format = js "text") then js "text/plain" else format in
  let format :=
    if bool_decide (format = js "url") then js "text/uri-list" else format in
  mkDataTransfer
    (List.filter (fun e => negb (bool_decide (fst e = format))) (items d)
     ++ [(format, data)])
    (effectAllowed d).

(** [dragStartHandler] (lines 201-205); [None] is the [TypeError] of
    reading a property of the [null] data transfer. *)
Definition dragStartHandler (this : ProjectItem) (event : DragEvent)
  : option DragEvent :=
  match dataTransfer event with
  | None => None
  | Some d =>
      let d := setData (js "text/plain") (id (project this)) d in
      Some (mkDragEvent (Some (mkDataTransfer (items d) (js "move"))))
  end.

(** *** The lists (lines 222-291) *)

Definition set_projectLists (f : list ProjectList -> list ProjectList)
  (u : UI) : UI :=
  mkUI (projectInput u) (f (projectLists u)) (alerts u).

(** [dragOverHandler] (lines 237-244): when the first format of the data
    dragged is [text/plain], the [ul] of the list is marked. *)
Definition dragOverHandler (this : nat) (event : DragEvent) : M unit :=
  match dataTransfer event with
  | Some d =>
      match types d with
      | t :: _ =>
          if bool_decide (t = js "text/plain")
          then set_ui (set_projectLists (alter (fun self =>
                 mkProjectList (type self) (assignedProjects self)
                   (listEl self) true) this))
          else ret tt
      | [] => ret tt
      end
  | None => ret tt
  end.

(** [dragLeaveHandler] (lines 246-250) *)
Definition dragLeaveHandler (this : nat) (event : DragEvent) : M unit :=
  set_ui (set_projectLists (alter (fun self =>
    mkProjectList (type self) (assignedProjects self) (listEl self) false)
    this)).

(** [dropHandler] (lines 252-253): an empty body. *)
Definition dropHandler (this : nat) (event : DragEvent) : M unit :=
  ret tt.

(** [renderProjects] (lines 255-265): the [ul] is emptied, then gets one
    new item per assigned project, each appended at its end. *)
Definition renderProjects (self : ProjectList) : ProjectList :=
  let listEl := [] in
  let listEl :=
    fold_left (fun listEl project => listEl ++ [new_ProjectItem project])
      (assignedProjects self) listEl in
  mkProjectList (type self) (assignedProjects self) listEl (droppable self).

(** The listener of a list (lines 272-282); [this] is the position of the
    list among the lists of the page. *)
Definition ProjectList_listener (this : nat) : Listener :=
  fun projects h u =>
  match projectLists u !! this with
  | Some self =>
      let relevantProjects :=
        List.filter (fun project =>
          match type self with
          | active => ProjectStatus_eqb (status project) Active
          | finished => ProjectStatus_eqb (status project) Finished
          end) (Array_contents h projects) in
      let self :=
        mkProjectList (type self) relevantProjects (listEl self)
          (droppable self) in
      set_projectLists (fun lists => <[this := renderProjects self]> lists) u
  | None => u
  end.

(** [new ProjectList(type)] (lines 228-235, 267-283) *)
Definition new_ProjectList (type : ListType) : M nat :=
  this <- get (fun w => List.length (projectLists (ui w))) ;;
  set_ui (set_projectLists (fun lists =>
    lists ++ [mkProjectList type [] [] false])) ;;;
  addListener (ProjectList_listener this) ;;;
  ret this.

(** *** The form (lines 293-368) *)

Definition set_projectInput (f : ProjectInput -> ProjectInput) (u : UI)
  : UI :=
  mkUI (f (projectInput u)) (projectLists u) (alerts u).

(** [alert(message)] *)
Definition alert (message : jsstring) : M unit :=
  set_ui (fun u =>
    mkUI (projectInput u) (projectLists u) (alerts u ++ [message])).

(** The three configurations [gatherUserInput] builds (lines 319-335),
    from the texts of the fields. *)
Definition titleValidation (title : jsstring) : Validatable :=
  mkValidatable (Some (Str title)) (Some true) None None None None.

Definition descriptionValidation (description : jsstring) : Validatable :=
  mkValidatable (Some (Str description)) (Some true) (Some (ofZ 5))
    None None None.

Definition peopleValidation (people : jsstring) : Validatable :=
  mkValidatable (Some (Num (ToNumber people))) (Some true) None None
    (Some (ofZ 1)) (Some (ofZ 5)).

(** [gatherUserInput] (lines 314-347); [None] is the [void] result. *)
Definition gatherUserInput : M (option (jsstring * jsstring * number)) :=
  title <- get (fun w => titleInputElement (projectInput (ui w))) ;;
  description <- get (fun w => descriptionInputElement (projectInput (ui w))) ;;
  people <- get (fun w => peopleInputElement (projectInput (ui w))) ;;
  if negb (validate (titleValidation title))
     || negb (validate (descriptionValidation description))
     || negb (validate (peopleValidation people))
  then
    alert (js "Invalid input, please try again") ;;;
    ret None
  else
    ret (Some (title, description, ToNumber people)).

(** [clearInputs] (lines 349-353) *)
Definition clearInputs : M unit :=
  set_ui (set_projectInput (fun _ => mkProjectInput [] [] [])).

(** [submitHandler] (lines 355-367); [event.preventDefault()] only keeps
    the browser from sending the form. *)
Definition submitHandler : M unit :=
  userInput <- gatherUserInput ;;
  match userInput with
  | Some (title, description, people) =>
      addProject title description people ;;;
      clearInputs
  | None => ret tt
  end.

(** *** The page (lines 70, 370-372) *)

(** The state when the script starts: [getInstance] has created the store
    with its two empty arrays (line 70), the fields of the form are
    empty. *)
Definition start (entropy : nat -> Q) : World :=
  mkWorld [[]] (mkProjectState [] 0)
    (mkUI (mkProjectInput [] [] []) [] []) [] entropy 0.

Definition main (entropy : nat -> Q) : World :=
  exec (activeProjectList <- new_ProjectList active ;;
        finishedProjectList <- new_ProjectList finished ;;
        ret tt)
       (start entropy).

(** What can happen next: the user types in a field, submits the form or
    drags something over, out of or onto a list; [Store_addProject] and
    [Store_addListener] are the two methods of the store, called by any
    other code of the page. *)
Inductive Action : Type :=
| Type_title (text : jsstring)
| Type_description (text : jsstring)
| Type_people (text : jsstring)
| Submit
| DragOver (list : nat) (event : DragEvent)
| DragLeave (list : nat) (event : DragEvent)
| Drop (list : nat) (event : DragEvent)
| Store_addProject (title description : jsstring) (people : number)
| Store_addListener (listenerFn : Listener).

Definition run (a : Action) : M unit :=
  match a with
  | Type_title text =>
      set_ui (set_projectInput (fun f =>
        mkProjectInput text (descriptionInputElement f)
          (peopleInputElement f)))
  | Type_description text =>
      set_ui (set_projectInput (fun f =>
        mkProjectInput (titleInputElement f) text (peopleInputElement f)))
  | Type_people text =>
      set_ui (set_projectInput (fun f =>
        mkProjectInput (titleInputElement f) (descriptionInputElement f)
          text))
  | Submit => submitHandler
  | DragOver list event => dragOverHandler list event
  | DragLeave list event => dragLeaveHandler list event
  | Drop list event => dropHandler list event
  | Store_addProject title description people =>
      addProject title description people
  | Store_addListener listenerFn => addListener listenerFn
  end.

Definition runs (actions : list Action) (w : World) : World :=
  fold_left (fun w a => exec (run a) w) actions w.

(** The states of the page: what [main] leaves, then any actions. *)
Inductive reachable : World -> Prop :=
| reachable_main entropy : reachable (main entropy)
| reachable_run a w : reachable w -> reachable (exec (run a) w).

(** The projects of the store. *)
Definition stored (w : World) : list Project :=
  Array_contents (heap w) (projects (projectState w)).

(** The reference of the store to its array is allocated. *)
Definition well_formed (w : World) : Prop :=
  projects (projectState w) < List.length (heap w).

(** The project that [addProject] builds in the state [w]. *)
Definition newProject (w : World) (title description : jsstring)
  (people : number) : Project :=
  mkProject (toString (Fin (entropy w (drawn w)))) title description people
    Active.

(** The status a list shows: [Active] for the list ["active"], [Finished]
    for the list ["finished"]. *)
Definition shown_status (type : ListType) : ProjectStatus :=
  match type with
  | active => Active
  | finished => Finished
  end.

(** The page as [main] builds it: the store has the listeners of the two
    lists, the active list first, and these are the lists of the page. *)
Definition page_shape (w : World) : Prop :=
  listeners (projectState w)
    = [ProjectList_listener 0; ProjectList_listener 1]
  /\ exists activeList finishedList,
       projectLists (ui w) = [activeList; finishedList]
       /\ type activeList = active
       /\ type finishedList = finished.

(** The actions that register no listener. *)
Definition registers_nothing (a : Action) : bool :=
  match a with
  | Store_addListener _ => false
  | _ => true
  end.

(** What the conjuncts of [validate] ask of a value. *)
Definition required_ok (required : option bool) (stringValue : jsstring)
  : bool :=
  match required with
  | Some true => negb (List.length (trim stringValue) =? 0)
  | _ => true
  end.

Definition bound_ok (cmp : number -> number -> bool) (x : number)
  (bound : option number) : bool :=
  match bound with
  | Some b => cmp x b
  | None => true
  end.

(** A string made of white space only, the empty string among them. *)
Definition blank (s : jsstring) : bool := forallb isWhiteSpace s.

(** The numbers whose text needs no rounding: [NaN], the infinities and
    the safe integers. *)
Definition plain_number (x : number) : bool :=
  match x with
  | Fin q => match safeInteger q with Some _ => true | None => false end
  | _ => true
  end.

(** Actions that register nothing, one after the other. *)
Definition quiet (actions : list Action) : bool :=
  forallb registers_nothing actions.

(** The drag events a list handles. *)
Definition drag_action (a : Action) : bool :=
  match a with
  | DragOver _ _ | DragLeave _ _ | Drop _ _ => true
  | _ => false
  end.

(** A list without the mark of its [ul]. *)
Definition unmarked (l : ProjectList) : ProjectList :=
  mkProjectList (type l) (assignedProjects l) (listEl l) false.

(** The page with its lists in step with the store: the active list holds
    and renders the stored projects, in their order, and the finished list
    holds nothing. *)
Definition in_step (w : World) : Prop :=
  exists activeList finishedList,
    projectLists (ui w) = [activeList; finishedList]
    /\ type activeList = active
    /\ assignedProjects activeList = stored w
    /\ listEl activeList = List.map new_ProjectItem (stored w)
    /\ type finishedList = finished
    /\ assignedProjects finishedList = []
    /\ listEl finishedList = [].

(** What holds of the page as long as nothing else registers a listener. *)
Definition page_invariant (w : World) : Prop :=
  well_formed w
  /\ listeners (projectState w)
     = [ProjectList_listener 0; ProjectList_listener 1]
  /\ Forall (fun p => status p = Active) (stored w)
  /\ in_step w
  /\ Forall (fun m => m = js "Invalid input, please try again")
       (alerts (ui w)).

(** ** Properties *)

(** *** Numbers and strings *)

Lemma strictEq_not_gt x y : strictEq x y = true -> num_gt x y = false.
Proof.
  destruct x as [| | |a], y as [| | |b]; simpl; try discriminate; try reflexivity.
  unfold num_gt; simpl. intros E.
  apply Qeq_bool_iff in E.
  assert (L : Qle_bool a b = true) by (apply Qle_bool_iff; rewrite E; apply Qle_refl).
  now rewrite L.
Qed.

Lemma strictEq_ge x y : strictEq x y = true -> num_ge x y = true.
Proof.
  destruct x as [| | |a], y as [| | |b]; simpl; try discriminate; try reflexivity.
  unfold num_ge; simpl. intros E.
  apply Qeq_bool_iff in E.
  assert (L : Qle_bool b a = true) by (apply Qle_bool_iff; rewrite E; apply Qle_refl).
  now rewrite L.
Qed.

Lemma strictEq_le x y : strictEq x y = true -> num_le x y = true.
Proof.
  destruct x as [| | |a], y as [| | |b]; simpl; try discriminate; try reflexivity.
  unfold num_le; simpl. intros E.
  apply Qeq_bool_iff in E.
  assert (L : Qle_bool a b = true) by (apply Qle_bool_iff; rewrite E; apply Qle_refl).
  now rewrite L.
Qed.

Lemma num_lt_not_ge x y : num_lt x y = true -> num_ge x y = false.
Proof.
  unfold num_lt, num_ge. now destruct (IsLessThan x y) as [[|]|].
Qed.

Lemma num_gt_not_le x y : num_gt x y = true -> num_le x y = false.
Proof.
  unfold num_gt, num_le. now destruct (IsLessThan y x) as [[|]|].
Qed.

Lemma num_le_not_gt x y : num_le x y = true -> num_gt x y = false.
Proof.
  unfold num_gt, num_le. now destruct (IsLessThan y x) as [[|]|].
Qed.

Lemma trimStart_nil s : trimStart s = [] <-> forallb isWhiteSpace s = true.
Proof.
  induction s as [|c s IH]; simpl.
  - tauto.
  - destruct (isWhiteSpace c); simpl; [exact IH | split; discriminate].
Qed.

Lemma trimStart_keeps_ink s :
  forallb isWhiteSpace s = false -> forallb isWhiteSpace (trimStart s) = false.
Proof.
  induction s as [|c s IH]; simpl; [discriminate |].
  destruct (isWhiteSpace c) eqn:E; simpl; [exact IH | now rewrite E].
Qed.

Lemma forallb_rev {A} (f : A -> bool) l : forallb f (rev l) = forallb f l.
Proof.
  induction l as [|a l IH]; simpl; [reflexivity |].
  rewrite forallb_app, IH; simpl. rewrite andb_true_r. apply andb_comm.
Qed.

(** [trim] leaves nothing exactly of the strings made of white space. *)
Lemma trim_nil s : trim s = [] <-> forallb isWhiteSpace s = true.
Proof.
  unfold trim, trimEnd. split.
  - intros E. apply (f_equal (@rev N)) in E. rewrite rev_involutive in E.
    simpl in E. apply trimStart_nil in E. rewrite forallb_rev in E.
    destruct (forallb isWhiteSpace s) eqn:F; [reflexivity |].
    apply trimStart_keeps_ink in F. congruence.
  - intros F. assert (E : trimStart s = []) by now apply trimStart_nil.
    now rewrite E.
Qed.

(** *** The validator, by the type of the value *)

Lemma orEmpty_Some s : orEmpty (Some s) = s.
Proof. now destruct s. Qed.

Lemma validate_string s req minL maxL mn mx :
  validate (mkValidatable (Some (Str s)) req minL maxL mn mx) =
  required_ok req s
  && bound_ok num_gt (ofNat (List.length s)) minL
  && bound_ok num_gt (ofNat (List.length s)) maxL.
Proof.
  unfold validate; cbn [value required minLength maxLength min max value_toString].
  rewrite orEmpty_Some.
  destruct req as [[|]|], minL, maxL, mn, mx; cbn;
    rewrite ?andb_true_r; reflexivity.
Qed.

Lemma validate_number v req minL maxL mn mx :
  validate (mkValidatable (Some (Num v)) req minL maxL mn mx) =
  required_ok req (orEmpty (Some (toString v)))
  && bound_ok num_ge v mn
  && bound_ok num_le v mx.
Proof.
  unfold validate; cbn [value required minLength maxLength min max value_toString].
  destruct req as [[|]|], minL, maxL, mn, mx; cbn;
    rewrite ?andb_true_r; reflexivity.
Qed.

(** C3: for a string value the length is compared to the configured
    bounds with a strict [>]: a string whose length equals the configured
    [minLength] is invalid, and so is a string whose length equals the
    configured [maxLength], whatever else is configured. *)
Theorem validate_length_equal_to_bound_invalid :
  forall (s : jsstring) (bound : number) req minL maxL mn mx,
    strictEq (ofNat (List.length s)) bound = true ->
    validate (mkValidatable (Some (Str s)) req (Some bound) maxL mn mx)
      = false
    /\ validate (mkValidatable (Some (Str s)) req minL (Some bound) mn mx)
      = false.
Proof.
  intros s bound req minL maxL mn mx E.
  apply strictEq_not_gt in E.
  rewrite !validate_string; cbn [bound_ok]; rewrite E.
  split.
  - now rewrite andb_false_r.
  - apply andb_false_r.
Qed.

(** C4: the conjunct of [maxLength] holds exactly when the string is
    strictly longer than [maxLength]: [validate] with a [maxLength] is
    [validate] without it and that comparison.  A string strictly longer
    than [maxLength] is therefore judged as if no [maxLength] were
    configured, and a string of length at most [maxLength] is invalid. *)
Theorem validate_maxLength_inverted :
  forall (s : jsstring) (maxLength : number) req minL mn mx,
    let len := ofNat (List.length s) in
    let without := validate (mkValidatable (Some (Str s)) req minL None mn mx) in
    let with_ :=
      validate (mkValidatable (Some (Str s)) req minL (Some maxLength) mn mx) in
    with_ = without && num_gt len maxLength
    /\ (num_gt len maxLength = true -> with_ = without)
    /\ (num_le len maxLength = true -> with_ = false).
Proof.
  intros s M req minL mn mx len without with_.
  assert (H : with_ = without && num_gt len M).
  { unfold with_, without. rewrite !validate_string. cbn [bound_ok].
    now rewrite andb_true_r. }
  split; [exact H |]. split; intros E.
  - rewrite H, E. apply andb_true_r.
  - apply num_le_not_gt in E. rewrite H, E. apply andb_false_r.
Qed.

(** C5: for a numeric value the bounds [min] and [max] are inclusive.  A
    value strictly below [min] or strictly above [max] is invalid; a value
    equal to [min] passes the check of [min] and a value equal to [max]
    that of [max] (the result is that of the same configuration without
    the bound), so that with nothing else configured the value is valid. *)
Theorem validate_numeric_bounds_inclusive :
  forall (v bound : number) req minL maxL mn mx,
    (num_lt v bound = true ->
       validate (mkValidatable (Some (Num v)) req minL maxL (Some bound) mx)
         = false)
    /\ (num_gt v bound = true ->
       validate (mkValidatable (Some (Num v)) req minL maxL mn (Some bound))
         = false)
    /\ (strictEq v bound = true ->
       validate (mkValidatable (Some (Num v)) req minL maxL (Some bound) mx)
         = validate (mkValidatable (Some (Num v)) req minL maxL None mx)
       /\ validate (mkValidatable (Some (Num v)) req minL maxL mn (Some bound))
         = validate (mkValidatable (Some (Num v)) req minL maxL mn None)
       /\ validate (mkValidatable (Some (Num v)) None None None
                      (Some bound) None) = true
       /\ validate (mkValidatable (Some (Num v)) None None None
                      None (Some bound)) = true
       /\ validate (mkValidatable (Some (Num v)) None None None
                      (Some bound) (Some bound)) = true).
Proof.
  intros v bound req minL maxL mn mx.
  rewrite !validate_number; cbn [bound_ok required_ok].
  split; [| split].
  - intros E. apply num_lt_not_ge in E. rewrite E.
    now rewrite andb_false_r.
  - intros E. apply num_gt_not_le in E. rewrite E. apply andb_false_r.
  - intros E. rewrite (strictEq_ge _ _ E), (strictEq_le _ _ E).
    rewrite !andb_true_r. repeat split; reflexivity.
Qed.

(** C6, as the code has it: with [required] set, a string that is empty or
    made of white space only is invalid, whatever else is configured, and
    a string with a character that is no white space is valid when nothing
    else is configured. *)
Theorem validate_required :
  forall (s : jsstring) minL maxL mn mx,
    (forallb isWhiteSpace s = true ->
       validate (mkValidatable (Some (Str s)) (Some true) minL maxL mn mx)
         = false)
    /\ (forallb isWhiteSpace s = false ->
       validate (mkValidatable (Some (Str s)) (Some true) None None None None)
         = true).
Proof.
  intros s minL maxL mn mx. rewrite !validate_string. cbn [bound_ok required_ok].
  split; intros E.
  - apply trim_nil in E. now rewrite E.
  - destruct (trim s) eqn:T; [| reflexivity].
    apply trim_nil in T. congruence.
Qed.

(** *** The store *)

Lemma exec_bind {A B} (m : M A) (k : A -> M B) w :
  exec (bind m k) w = exec (k (fst (m w))) (exec m w).
Proof. unfold exec, bind. now destruct (m w). Qed.

Lemma Array_contents_app_l (h extra : Heap) r :
  r < List.length h -> Array_contents (h ++ extra) r = Array_contents h r.
Proof.
  intros L. unfold Array_contents, Heap, loc in *. now rewrite lookup_app_l.
Qed.

Lemma Array_contents_fresh (h : Heap) a :
  Array_contents (h ++ [a]) (List.length h) = a.
Proof.
  unfold Array_contents, Heap, loc in *. now rewrite list_lookup_middle.
Qed.

Lemma Array_contents_alter_eq (h : Heap) a f :
  a < List.length h ->
  Array_contents (alter f a h) a = f (Array_contents h a).
Proof.
  intros L. unfold Array_contents, Heap, loc in *.
  rewrite list_lookup_alter_eq.
  apply lookup_lt_is_Some_2 in L. destruct L as [items E]. now rewrite E.
Qed.

Lemma length_alter_heap (h : Heap) a f :
  List.length (alter f a h) = List.length h.
Proof. unfold Heap, loc in *. apply length_alter. Qed.

(** The loop of [addProject]: one copy and one call per listener. *)
Lemma notify_loop ls : forall i w a,
  a < List.length (heap w) ->
  let w' := exec (forOf i ls (fun i listenerFn =>
                    bind (Array_slice a) (fun items => call i listenerFn items))) w in
  let full := Array_contents (heap w) a in
  heap w' = heap w ++ replicate (List.length ls) full
  /\ calls w' =
     calls w ++ List.map (fun k => (i + k, List.length (heap w) + k, full))
                  (seq 0 (List.length ls))
  /\ projectState w' = projectState w
  /\ entropy w' = entropy w
  /\ drawn w' = drawn w.
Proof.
  induction ls as [|l ls IH]; intros i w a La; cbn zeta.
  - cbn. rewrite !app_nil_r. tauto.
  - cbn [forOf]. rewrite exec_bind.
    set (w1 := exec (bind (Array_slice a) (fun items => call i l items)) w).
    assert (H1 : heap w1 = heap w ++ [Array_contents (heap w) a]) by reflexivity.
    assert (C1 : calls w1 =
                 calls w ++ [(i, List.length (heap w), Array_contents (heap w) a)]).
    { unfold w1, exec, bind, Array_slice, call; cbn.
      now rewrite Array_contents_fresh. }
    assert (La1 : a < List.length (heap w1)).
    { rewrite H1, length_app. lia. }
    destruct (IH (S i) w1 a La1) as (Hh & Hc & Hp & He & Hd).
    rewrite Hh, Hc, Hp, He, Hd, H1, C1.
    rewrite (Array_contents_app_l _ _ _ La).
    repeat split.
    + rewrite <- app_assoc. reflexivity.
    + rewrite <- app_assoc. f_equal.
      cbn [List.length seq List.map]. rewrite <- seq_shift, List.map_map.
      rewrite !Nat.add_0_r. cbn [app]. f_equal.
      apply List.map_ext. intros k. rewrite length_app. cbn [List.length].
      do 2 f_equal; lia.
Qed.

Lemma addProject_unfold w title description people :
  exec (addProject title description people) w =
  exec (forOf 0 (listeners (projectState w)) (fun i listenerFn =>
          bind (Array_slice (projects (projectState w)))
            (fun items => call i listenerFn items)))
    (mkWorld
       (alter (fun items => items ++ [newProject w title description people])
          (projects (projectState w)) (heap w))
       (projectState w) (ui w) (calls w) (entropy w) (S (drawn w))).
Proof. reflexivity. Qed.

Lemma addProject_effect w title description people :
  well_formed w ->
  let w' := exec (addProject title description people) w in
  let a := projects (projectState w) in
  let full := stored w ++ [newProject w title description people] in
  heap w' =
    alter (fun items => items ++ [newProject w title description people]) a
      (heap w)
    ++ replicate (List.length (listeners (projectState w))) full
  /\ calls w' =
     calls w ++ List.map (fun k => (k, List.length (heap w) + k, full))
                  (seq 0 (List.length (listeners (projectState w))))
  /\ projectState w' = projectState w
  /\ entropy w' = entropy w
  /\ drawn w' = S (drawn w).
Proof.
  intros WF w' a full.
  unfold w'. rewrite addProject_unfold. fold a.
  set (w1 := mkWorld _ _ _ _ _ _).
  assert (La : a < List.length (heap w1)).
  { unfold w1; cbn [heap]. rewrite length_alter_heap. exact WF. }
  destruct (notify_loop (listeners (projectState w)) 0 w1 a La)
    as (Hh & Hc & Hp & He & Hd).
  assert (F : Array_contents (heap w1) a = full).
  { unfold w1; cbn [heap]. now rewrite Array_contents_alter_eq. }
  rewrite F in Hh, Hc.
  rewrite Hh, Hc, Hp, He, Hd.
  unfold w1; cbn [heap calls projectState entropy drawn].
  rewrite length_alter_heap.
  repeat split; reflexivity.
Qed.

(** *** The form *)

Lemma gatherUserInput_eq w :
  let f := projectInput (ui w) in
  gatherUserInput w =
  if negb (validate (titleValidation (titleInputElement f)))
     || negb (validate (descriptionValidation (descriptionInputElement f)))
     || negb (validate (peopleValidation (peopleInputElement f)))
  then (None, exec (alert (js "Invalid input, please try again")) w)
  else (Some (titleInputElement f, descriptionInputElement f,
              ToNumber (peopleInputElement f)), w).
Proof.
  cbn zeta. unfold gatherUserInput, bind, get.
  now destruct (_ || _ || _).
Qed.

Lemma submitHandler_eq w :
  let f := projectInput (ui w) in
  exec submitHandler w =
  if negb (validate (titleValidation (titleInputElement f)))
     || negb (validate (descriptionValidation (descriptionInputElement f)))
     || negb (validate (peopleValidation (peopleInputElement f)))
  then exec (alert (js "Invalid input, please try again")) w
  else exec clearInputs
         (exec (addProject (titleInputElement f) (descriptionInputElement f)
                  (ToNumber (peopleInputElement f))) w).
Proof.
  cbn zeta. unfold submitHandler, exec at 1, bind at 1.
  rewrite gatherUserInput_eq. cbn zeta.
  destruct (_ || _ || _); [reflexivity |].
  apply (exec_bind (addProject _ _ _) (fun _ => clearInputs)).
Qed.

(** *** What an action does to the arrays *)

(** Every action appends some projects, all of them active, to the array
    of the store and allocates some arrays; it changes no other array and
    leaves the reference of the store alone. *)
Lemma run_effect a w :
  well_formed w ->
  exists new extra,
    heap (exec (run a) w) =
      alter (fun items => items ++ new) (projects (projectState w)) (heap w)
      ++ extra
    /\ projects (projectState (exec (run a) w)) = projects (projectState w)
    /\ Forall (fun p => status p = Active) new.
Proof.
  intros WF.
  assert (Same : forall w', heap w' = heap w ->
            projects (projectState w') = projects (projectState w) ->
            exists new extra,
              heap w' =
                alter (fun items => items ++ new) (projects (projectState w))
                  (heap w) ++ extra
              /\ projects (projectState w') = projects (projectState w)
              /\ Forall (fun p => status p = Active) new).
  { intros w' Hh Hp. exists [], []. rewrite app_nil_r, Hh, Hp.
    unfold Heap, loc in *.
    rewrite list_alter_id by (intros; apply app_nil_r).
    repeat split. constructor. }
  assert (Add : forall t d p,
            exists new extra,
              heap (exec (addProject t d p) w) =
                alter (fun items => items ++ new) (projects (projectState w))
                  (heap w) ++ extra
              /\ projects (projectState (exec (addProject t d p) w)) =
                 projects (projectState w)
              /\ Forall (fun p => status p = Active) new).
  { intros t d p.
    destruct (addProject_effect w t d p WF) as (Hh & _ & Hp & _).
    eexists [newProject w t d p], _. rewrite Hh, Hp.
    repeat split. repeat constructor. }
  destruct a as [text|text|text| |l e|l e|l e|t d p|listenerFn];
    cbn [run]; try (apply Same; reflexivity); try apply Add.
  - rewrite submitHandler_eq. cbn zeta.
    destruct (_ || _ || _); [apply Same; reflexivity |].
    destruct (Add (titleInputElement (projectInput (ui w)))
                (descriptionInputElement (projectInput (ui w)))
                (ToNumber (peopleInputElement (projectInput (ui w)))))
      as (new & extra & Hh & Hp & Hn).
    exists new, extra. repeat split; assumption.
  - unfold dragOverHandler.
    destruct (dataTransfer e) as [d|]; [| apply Same; reflexivity].
    destruct (types d) as [|t ts]; [apply Same; reflexivity |].
    destruct (bool_decide _); apply Same; reflexivity.
Qed.

Lemma run_stored a w :
  well_formed w ->
  well_formed (exec (run a) w)
  /\ List.length (heap w) <= List.length (heap (exec (run a) w))
  /\ projects (projectState (exec (run a) w)) = projects (projectState w)
  /\ (exists new, stored (exec (run a) w) = stored w ++ new
                  /\ Forall (fun p => status p = Active) new)
  /\ (forall r, r < List.length (heap w) -> r <> projects (projectState w) ->
        heap (exec (run a) w) !! r = heap w !! r).
Proof.
  intros WF. destruct (run_effect a w WF) as (new & extra & Hh & Hp & Hn).
  assert (L : List.length (heap w) <= List.length (heap (exec (run a) w))).
  { rewrite Hh, length_app, length_alter_heap. lia. }
  unfold well_formed in *. split; [rewrite Hp; lia |].
  split; [exact L |]. split; [exact Hp |]. split.
  - exists new. split; [| exact Hn]. unfold stored. rewrite Hh, Hp.
    rewrite Array_contents_app_l by now rewrite length_alter_heap.
    now rewrite Array_contents_alter_eq.
  - intros r Lr Nr. rewrite Hh. unfold Heap, loc in *.
    rewrite lookup_app_l by now rewrite length_alter.
    apply list_lookup_alter_ne. congruence.
Qed.

Lemma runs_frame actions : forall w r,
  well_formed w ->
  r < List.length (heap w) -> r <> projects (projectState w) ->
  heap (runs actions w) !! r = heap w !! r.
Proof.
  induction actions as [|a actions IH]; intros w r WF Lr Nr; [reflexivity |].
  cbn [runs fold_left].
  destruct (run_stored a w WF) as (WF' & L & Hp & _ & Fr).
  fold (runs actions (exec (run a) w)).
  rewrite IH; [now apply Fr | exact WF' | lia | now rewrite Hp].
Qed.

Lemma reachable_invariant w :
  reachable w ->
  well_formed w /\ Forall (fun p => status p = Active) (stored w).
Proof.
  induction 1 as [entropy | a w R [WF IH]].
  - split; [unfold well_formed; cbn; lia | constructor].
  - destruct (run_stored a w WF) as (WF' & _ & _ & (new & Hs & Hn) & _).
    split; [exact WF' |]. rewrite Hs. apply Forall_app. now split.
Qed.

(** The loop of [addProject], as the user interface sees it: the
    listeners act one after the other, each on what the one before left,
    each called with its new array in the heap of that moment. *)
Lemma notify_loop_ui ls : forall i w a (h0 : Heap) j,
  a < List.length (heap w) ->
  heap w = h0 ++ replicate j (Array_contents (heap w) a) ->
  ui (exec (forOf i ls (fun i listenerFn =>
              bind (Array_slice a) (fun items => call i listenerFn items))) w)
  = fold_left (fun u il =>
       snd il (List.length h0 + fst il)
         (h0 ++ replicate (S (fst il)) (Array_contents (heap w) a)) u)
      (combine (seq j (List.length ls)) ls) (ui w).
Proof.
  induction ls as [|l ls IH]; intros i w a h0 j La Hh; [reflexivity |].
  cbn [forOf]. rewrite exec_bind.
  set (full := Array_contents (heap w) a) in *.
  set (w1 := exec (bind (Array_slice a) (fun items => call i l items)) w).
  assert (H1 : heap w1 = heap w ++ [full]) by reflexivity.
  assert (U1 : ui w1 = l (List.length (heap w)) (heap w ++ [full]) (ui w))
    by reflexivity.
  assert (La1 : a < List.length (heap w1))
    by (rewrite H1, length_app; lia).
  assert (F1 : Array_contents (heap w1) a = full)
    by (rewrite H1; now apply Array_contents_app_l).
  assert (Hh1 : heap w1 = h0 ++ replicate (S j) full).
  { rewrite H1, Hh at 1. rewrite <- app_assoc. f_equal.
    change [full] with (replicate 1 full).
    rewrite <- replicate_add. f_equal. lia. }
  rewrite <- F1 in Hh1.
  rewrite (IH (S i) w1 a h0 (S j) La1 Hh1), F1, U1.
  cbn [List.length seq combine fold_left fst snd].
  rewrite Hh at 1 2. rewrite length_app, length_replicate.
  rewrite <- app_assoc. change [full] with (replicate 1 full).
  rewrite <- replicate_add. now replace (j + 1) with (S j) by lia.
Qed.

Lemma fold_left_ext_In {A B} (f g : A -> B -> A) (l : list B) :
  (forall a b, In b l -> f a b = g a b) ->
  forall a, fold_left f l a = fold_left g l a.
Proof.
  induction l as [|b l IH]; intros H a; [reflexivity |].
  cbn [fold_left]. rewrite (H a b) by now left.
  apply IH. intros a' b' I. apply H. now right.
Qed.

(** What [addProject] does to the user interface: every listener is
    applied, in the order of registration, to the reference of its own
    array and to the heap as it is when it is called (the arrays
    allocated up to its own). *)
Lemma addProject_ui w t d n :
  well_formed w ->
  let w' := exec (addProject t d n) w in
  ui w' =
  fold_left (fun u il =>
     snd il (List.length (heap w) + fst il)
       (take (List.length (heap w) + S (fst il)) (heap w')) u)
    (combine (seq 0 (List.length (listeners (projectState w))))
       (listeners (projectState w)))
    (ui w).
Proof.
  intros WF w'.
  destruct (addProject_effect w t d n WF) as (Hh & _).
  fold w' in Hh. unfold w' at 1. rewrite addProject_unfold.
  set (w1 := mkWorld _ _ _ _ _ _).
  set (a := projects (projectState w)) in *.
  set (h1 := alter _ a (heap w)) in *.
  assert (L1 : List.length h1 = List.length (heap w))
    by apply length_alter_heap.
  assert (La : a < List.length (heap w1)) by (cbn [w1 heap]; now rewrite L1).
  assert (F : Array_contents (heap w1) a
              = stored w ++ [newProject w t d n]).
  { cbn [w1 heap]. unfold h1. now rewrite Array_contents_alter_eq. }
  rewrite (notify_loop_ui _ 0 w1 a h1 0 La)
    by (cbn [w1 heap replicate]; now rewrite app_nil_r).
  rewrite F. cbn [w1 ui].
  apply fold_left_ext_In. intros u [k l] I. cbn [fst snd].
  apply in_combine_l, in_seq in I. rewrite L1, Hh. do 2 f_equal.
  unfold Heap, loc in *.
  rewrite <- L1, take_app_add, take_replicate. do 2 f_equal. lia.
Qed.

(** C1: a call of [addProject] appends exactly one project to the array
    of the store: the new project has the arguments of the call, the status
    [Active] and, as identifier, the text of a number drawn from
    [Math.random] by this call (one more value is drawn); the length of the
    array grows by one and every project stored before is still there, at
    its position. *)
Theorem addProject_appends_one :
  forall (w : World) (t d : jsstring) (n : number),
    well_formed w ->
    let w' := exec (addProject t d n) w in
    exists added : Project,
      stored w' = stored w ++ [added]
      /\ status added = Active
      /\ id added = toString (Fin (entropy w (drawn w)))
      /\ drawn w' = S (drawn w)
      /\ title added = t
      /\ description added = d
      /\ people added = n
      /\ List.length (stored w') = S (List.length (stored w))
      /\ (forall i x, stored w !! i = Some x -> stored w' !! i = Some x).
Proof.
  intros w t d p WF w'.
  destruct (addProject_effect w t d p WF) as (Hh & _ & Hp & _ & Hd).
  fold w' in Hh, Hp, Hd.
  assert (S : stored w' = stored w ++ [newProject w t d p]).
  { unfold stored. rewrite Hh, Hp.
    rewrite Array_contents_app_l by now rewrite length_alter_heap.
    now rewrite Array_contents_alter_eq. }
  exists (newProject w t d p). rewrite S.
  repeat split; try assumption.
  - rewrite length_app. cbn. lia.
  - intros i x E. now apply lookup_app_l_Some.
Qed.

(** C2: [addProject] calls every registered listener, in the order of
    registration ([addListener] registers at the end), before it returns;
    each call gets an array of its own, allocated for it, that is not the
    array of the store and holds the full list of projects, the new one
    included.  Whatever happens later (a further [addProject] among it)
    changes none of these arrays, while the array of the store grows.
    The user interface that [addProject] leaves is what the listeners
    make of it: each, in the order of registration, is applied to the
    reference of its array, to the heap of that moment (in which this
    array holds the full list) and to what the listener before left. *)
Theorem addProject_notifies_with_copies :
  forall (w : World) (title description : jsstring) (people : number),
    well_formed w ->
    let w' := exec (addProject title description people) w in
    let n := List.length (listeners (projectState w)) in
    let full := stored w' in
    calls w' =
      calls w ++ List.map (fun i => (i, List.length (heap w) + i, full))
                   (seq 0 n)
    /\ (forall listenerFn,
          listeners (projectState (exec (addListener listenerFn) w)) =
          listeners (projectState w) ++ [listenerFn])
    /\ (forall i, i < n ->
          let snapshot := List.length (heap w) + i in
          heap w !! snapshot = None
          /\ snapshot <> projects (projectState w')
          /\ heap w' !! snapshot = Some full
          /\ (forall actions,
                heap (runs actions w') !! snapshot = Some full)
          /\ (forall t d p,
                stored (exec (addProject t d p) w') =
                full ++ [newProject w' t d p]))
    /\ ui w' =
       fold_left (fun u il =>
          snd il (List.length (heap w) + fst il)
            (take (List.length (heap w) + S (fst il)) (heap w')) u)
         (combine (seq 0 n) (listeners (projectState w))) (ui w)
    /\ (forall i, i < n ->
          take (List.length (heap w) + S i) (heap w')
            !! (List.length (heap w) + i) = Some full).
Proof.
  intros w t d p WF w' n full.
  pose proof (addProject_ui w t d p WF) as Hu. fold w' n in Hu.
  destruct (addProject_effect w t d p WF) as (Hh & Hc & Hp & _ & _).
  fold w' n in Hh, Hc, Hp.
  assert (S : full = stored w ++ [newProject w t d p]).
  { unfold full, stored. rewrite Hh, Hp.
    rewrite Array_contents_app_l by now rewrite length_alter_heap.
    now rewrite Array_contents_alter_eq. }
  assert (WF' : well_formed w').
  { unfold well_formed. rewrite Hh, Hp, length_app, length_alter_heap.
    unfold well_formed in WF. lia. }
  rewrite <- S in Hh, Hc.
  assert (Looks : forall i, i < n ->
            heap w' !! (List.length (heap w) + i) = Some full).
  { intros i Li. rewrite Hh. unfold Heap, loc in *.
    rewrite lookup_app_r by (rewrite length_alter; lia).
    rewrite length_alter.
    replace (List.length (heap w) + i - List.length (heap w)) with i by lia.
    now apply lookup_replicate_2. }
  split; [exact Hc |]. split; [reflexivity |].
  split; [| split; [exact Hu |]];
    [| intros i Li; unfold Heap, loc in *;
       rewrite lookup_take_lt by lia; now apply Looks].
  intros i Li snapshot.
  assert (Look : heap w' !! snapshot = Some full) by now apply Looks.
  assert (Ne : snapshot <> projects (projectState w')).
  { rewrite Hp. unfold well_formed in WF. unfold snapshot. lia. }
  split; [| split; [exact Ne | split; [exact Look | split]]].
  - apply lookup_ge_None. unfold snapshot. lia.
  - intros actions. rewrite runs_frame; [exact Look | exact WF' | | exact Ne].
    apply lookup_lt_is_Some. now exists full.
  - intros t' d' p'.
    destruct (addProject_effect w' t' d' p' WF') as (Hh' & _ & Hp' & _).
    unfold stored at 1. rewrite Hh', Hp'.
    rewrite Array_contents_app_l by now rewrite length_alter_heap.
    now rewrite Array_contents_alter_eq.
Qed.

(** C7: when one of the three validations of [gatherUserInput] fails, a
    submission shows the alert "Invalid input, please try again" and does
    nothing else: the store (its array, its listeners) and the three
    fields are as before. *)
Theorem submit_invalid_only_alerts :
  forall w : World,
    let f := projectInput (ui w) in
    validate (titleValidation (titleInputElement f)) = false
    \/ validate (descriptionValidation (descriptionInputElement f)) = false
    \/ validate (peopleValidation (peopleInputElement f)) = false ->
    let w' := exec submitHandler w in
    alerts (ui w') = alerts (ui w) ++ [js "Invalid input, please try again"]
    /\ projectInput (ui w') = projectInput (ui w)
    /\ projectLists (ui w') = projectLists (ui w)
    /\ heap w' = heap w
    /\ stored w' = stored w
    /\ projectState w' = projectState w
    /\ calls w' = calls w
    /\ drawn w' = drawn w.
Proof.
  intros w f H w'. unfold w'. rewrite submitHandler_eq. fold f.
  assert (E : negb (validate (titleValidation (titleInputElement f)))
              || negb (validate (descriptionValidation
                                   (descriptionInputElement f)))
              || negb (validate (peopleValidation (peopleInputElement f)))
              = true).
  { destruct H as [H | [H | H]]; rewrite H; cbn;
      rewrite ?orb_true_r; reflexivity. }
  rewrite E. repeat split.
Qed.

(** C9: no action changes the status of a project.  An action leaves
    every stored project as it is, at its position ([dropHandler] changes
    nothing at all), and what it adds is active; so in every state the
    page can reach, every stored project is active. *)
Theorem status_is_always_Active :
  (forall w, reachable w ->
     Forall (fun p => status p = Active) (stored w))
  /\ (forall w a i x, reachable w ->
        stored w !! i = Some x -> stored (exec (run a) w) !! i = Some x)
  /\ (forall w list event, exec (dropHandler list event) w = w).
Proof.
  split; [| split].
  - intros w R. now apply reachable_invariant.
  - intros w a i x R E. apply reachable_invariant in R as [WF _].
    destruct (run_stored a w WF) as (_ & _ & _ & (new & Hs & _) & _).
    rewrite Hs. now apply lookup_app_l_Some.
  - reflexivity.
Qed.

(** *** The lists *)

Lemma fold_left_append_map {A B} (f : A -> B) l : forall acc,
  fold_left (fun acc x => acc ++ [f x]) l acc = acc ++ List.map f l.
Proof.
  induction l as [|x l IH]; intros acc; cbn.
  - now rewrite app_nil_r.
  - rewrite IH, <- app_assoc. reflexivity.
Qed.

Lemma ProjectList_listener_effect this items h u self :
  projectLists u !! this = Some self ->
  let shown :=
    List.filter
      (fun p => ProjectStatus_eqb (status p) (shown_status (type self)))
      (Array_contents h items) in
  let u' := ProjectList_listener this items h u in
  projectLists u' =
    <[this := mkProjectList (type self) shown
                (List.map new_ProjectItem shown) (droppable self)]>
      (projectLists u)
  /\ projectInput u' = projectInput u
  /\ alerts u' = alerts u.
Proof.
  intros E shown u'. unfold u', ProjectList_listener. rewrite E.
  unfold renderProjects, set_projectLists;
    cbn [projectLists projectInput alerts type assignedProjects droppable].
  rewrite fold_left_append_map. cbn [app].
  replace (List.filter _ (Array_contents h items)) with shown
    by now (unfold shown; destruct (type self)).
  repeat split.
Qed.

(** The two listeners of the page, called by [addProject]. *)
Lemma notify_two (l0 l1 : Listener) a w :
  a < List.length (heap w) ->
  let full := Array_contents (heap w) a in
  let body := fun i listenerFn =>
    bind (Array_slice a) (fun items => call i listenerFn items) in
  ui (exec (forOf 0 [l0; l1] body) w) =
  l1 (S (List.length (heap w))) (heap w ++ [full; full])
    (l0 (List.length (heap w)) (heap w ++ [full]) (ui w)).
Proof.
  intros La full body.
  unfold body, exec, forOf, bind, Array_slice, call, ret;
    cbn [fst snd heap ui].
  rewrite (Array_contents_app_l _ _ _ La), length_app, <- app_assoc.
  cbn [List.length app]. fold full.
  now replace (List.length (heap w) + 1) with (S (List.length (heap w)))
    by lia.
Qed.

(** [addProject] on the page: what the two lists show afterwards. *)
Lemma addProject_on_page w t d n activeList finishedList :
  well_formed w ->
  listeners (projectState w)
    = [ProjectList_listener 0; ProjectList_listener 1] ->
  projectLists (ui w) = [activeList; finishedList] ->
  type activeList = active ->
  type finishedList = finished ->
  let w' := exec (addProject t d n) w in
  let added := newProject w t d n in
  let showing st :=
    List.filter (fun p => ProjectStatus_eqb (status p) st) (stored w) in
  projectLists (ui w') =
    [mkProjectList active (showing Active ++ [added])
       (List.map new_ProjectItem (showing Active ++ [added]))
       (droppable activeList);
     mkProjectList finished (showing Finished)
       (List.map new_ProjectItem (showing Finished))
       (droppable finishedList)]
  /\ projectInput (ui w') = projectInput (ui w)
  /\ alerts (ui w') = alerts (ui w).
Proof.
  intros WF Hls Hpl Ha Hf w' added showing.
  assert (U : ui w' =
    ProjectList_listener 1 (S (List.length (heap w)))
      (alter (fun items => items ++ [added]) (projects (projectState w))
         (heap w) ++ [stored w ++ [added]; stored w ++ [added]])
      (ProjectList_listener 0 (List.length (heap w))
         (alter (fun items => items ++ [added]) (projects (projectState w))
            (heap w) ++ [stored w ++ [added]])
         (ui w))).
  { unfold w'. rewrite addProject_unfold, Hls. fold added.
    rewrite notify_two by (cbn [heap]; now rewrite length_alter_heap).
    cbn [heap ui]. rewrite length_alter_heap.
    now rewrite Array_contents_alter_eq. }
  set (h0 := alter _ _ _) in U.
  assert (L0 : List.length h0 = List.length (heap w))
    by apply length_alter_heap.
  destruct (ProjectList_listener_effect 0 (List.length (heap w))
              (h0 ++ [stored w ++ [added]]) (ui w) activeList)
    as (H0 & I0 & A0).
  { now rewrite Hpl. }
  set (u0 := ProjectList_listener 0 _ _ _) in *.
  rewrite Hpl in H0. cbn [insert list_insert] in H0.
  destruct (ProjectList_listener_effect 1 (S (List.length (heap w)))
              (h0 ++ [stored w ++ [added]; stored w ++ [added]]) u0
              finishedList) as (H1 & I1 & A1).
  { now rewrite H0. }
  rewrite <- U, H0 in H1. cbn [insert list_insert] in H1.
  rewrite <- U in I1, A1.
  rewrite <- L0, Array_contents_fresh in H1.
  replace (h0 ++ [stored w ++ [added]; stored w ++ [added]])
    with ((h0 ++ [stored w ++ [added]]) ++ [stored w ++ [added]]) in H1
    by now rewrite <- app_assoc.
  replace (S (List.length h0))
    with (List.length (h0 ++ [stored w ++ [added]])) in H1
    by (rewrite length_app; cbn; lia).
  rewrite Array_contents_fresh in H1.
  rewrite Ha, Hf in H1. cbn [shown_status] in H1.
  rewrite !List.filter_app in H1. cbn [List.filter] in H1.
  change (ProjectStatus_eqb (status added) Active) with true in H1.
  change (ProjectStatus_eqb (status added) Finished) with false in H1.
  rewrite app_nil_r in H1.
  split; [exact H1 |]. split; congruence.
Qed.

(** The page keeps its shape as long as nothing else registers a
    listener: every notification finds the two lists. *)
Lemma page_shape_main entropy : page_shape (main entropy).
Proof.
  split; [reflexivity |]. now eexists _, _.
Qed.

Lemma page_shape_run a w :
  well_formed w -> page_shape w -> registers_nothing a = true ->
  page_shape (exec (run a) w).
Proof.
  intros WF (Hls & la & lf & Hpl & Ha & Hf) Ra.
  assert (Add : forall t d n, page_shape (exec (addProject t d n) w)).
  { intros t d n.
    destruct (addProject_effect w t d n WF) as (_ & _ & Hp & _).
    destruct (addProject_on_page w t d n la lf WF Hls Hpl Ha Hf)
      as (Hl & _ & _).
    split; [now rewrite Hp |].
    eexists _, _. split; [exact Hl |]. split; reflexivity. }
  assert (Keep : forall f : ProjectList -> ProjectList,
            (forall self, type (f self) = type self) ->
            forall this, exists la' lf',
              alter f this [la; lf] = [la'; lf']
              /\ type la' = active /\ type lf' = finished).
  { intros f Hty [|[|this]]; cbn; eexists _, _;
      (split; [reflexivity |]); rewrite ?Hty; now split. }
  destruct a as [text|text|text| |l e|l e|l e|t d n|listenerFn];
    cbn [run]; try discriminate Ra; try apply Add;
    try (split; [exact Hls | now exists la, lf]).
  - rewrite submitHandler_eq. cbn zeta.
    destruct (_ || _ || _); [split; [exact Hls | now exists la, lf] |].
    destruct (Add (titleInputElement (projectInput (ui w)))
                (descriptionInputElement (projectInput (ui w)))
                (ToNumber (peopleInputElement (projectInput (ui w)))))
      as (Hls' & la' & lf' & Hpl' & Ha' & Hf').
    split; [exact Hls' | now exists la', lf'].
  - unfold dragOverHandler.
    destruct (dataTransfer e) as [dt|];
      [| split; [exact Hls | now exists la, lf]].
    destruct (types dt) as [|ty tys];
      [split; [exact Hls | now exists la, lf] |].
    destruct (bool_decide _); [| split; [exact Hls | now exists la, lf]].
    split; [exact Hls |].
    unfold exec, set_ui, set_projectLists; cbn [snd ui projectLists].
    rewrite Hpl. now apply Keep.
  - split; [exact Hls |].
    unfold dragLeaveHandler, exec, set_ui, set_projectLists;
      cbn [snd ui projectLists].
    rewrite Hpl. now apply Keep.
Qed.

(** C8: at every notification a list keeps, of the array it is handed,
    the projects whose status is the one it shows, in their order, and
    replaces the children of its [ul] by one item per such project; the
    other lists are untouched.  On the page, with its active and its
    finished list, a project just added is therefore rendered last in the
    active list and is not rendered in the finished list. *)
Theorem ProjectList_renders_matching_projects :
  (forall (this : nat) (items : loc) (h : Heap) (u : UI) (self : ProjectList),
     projectLists u !! this = Some self ->
     let shown :=
       List.filter
         (fun p => ProjectStatus_eqb (status p) (shown_status (type self)))
         (Array_contents h items) in
     let u' := ProjectList_listener this items h u in
     projectLists u' !! this =
       Some (mkProjectList (type self) shown
               (List.map new_ProjectItem shown) (droppable self))
     /\ (forall other, other <> this ->
           projectLists u' !! other = projectLists u !! other))
  /\ (forall (w : World) (t d : jsstring) (n : number),
        well_formed w ->
        page_shape w ->
        let w' := exec (addProject t d n) w in
        let added := newProject w t d n in
        let showing st :=
          List.filter (fun p => ProjectStatus_eqb (status p) st)
            (stored w) in
        exists activeList' finishedList',
          projectLists (ui w') = [activeList'; finishedList']
          /\ type activeList' = active
          /\ assignedProjects activeList' = showing Active ++ [added]
          /\ listEl activeList' =
             List.map new_ProjectItem (showing Active ++ [added])
          /\ type finishedList' = finished
          /\ assignedProjects finishedList' = showing Finished
          /\ listEl finishedList' =
             List.map new_ProjectItem (showing Finished)
          /\ ~ In (new_ProjectItem added) (listEl finishedList')).
Proof.
  split.
  - intros this items h u self E shown u'.
    destruct (ProjectList_listener_effect this items h u self E)
      as (Hl & _ & _).
    fold shown u' in Hl. rewrite Hl. split.
    + apply list_lookup_insert_eq. apply lookup_lt_is_Some. now exists self.
    + intros other N. apply list_lookup_insert_ne. congruence.
  - intros w t d n WF (Hls & la & lf & Hpl & Ha & Hf) w' added showing.
    destruct (addProject_on_page w t d n la lf WF Hls Hpl Ha Hf)
      as (Hl & _ & _).
    eexists _, _. split; [exact Hl |].
    cbn [type assignedProjects listEl]. repeat split.
    intros I. apply in_map_iff in I as (p & Ep & Ip).
    apply (f_equal project) in Ep. cbn in Ep. subst p.
    apply filter_In in Ip as [_ Ip]. discriminate Ip.
Qed.

(** C10: the header of a rendered project counts its people: it is
    "1 Person assigned" when [people] is 1, and otherwise the text of
    [people] followed by " Persons assigned"; for a safe integer [n]
    other than 1 that text is the decimal numeral of [n]. *)
Theorem ProjectItem_header_counts_people :
  forall prj : Project,
    let header := h3_textContent (new_ProjectItem prj) in
    (strictEq (people prj) (ofZ 1) = true ->
       header = js "1 Person assigned")
    /\ (strictEq (people prj) (ofZ 1) = false ->
       header = toString (people prj) ++ js " Persons assigned")
    /\ (forall n : Z,
          people prj = ofZ n -> n <> 1%Z ->
          (Z.abs n <= MAX_SAFE_INTEGER)%Z ->
          header = decimal n ++ js " Persons assigned").
Proof.
  intros prj header.
  assert (Other : strictEq (people prj) (ofZ 1) = false ->
            header = toString (people prj) ++ js " Persons assigned").
  { intros E. unfold header; cbn [new_ProjectItem ProjectItem_renderContent
      h3_textContent]. unfold persons; cbn [project]. rewrite E.
    now rewrite <- app_assoc. }
  split; [| split; [exact Other |]].
  - intros E. unfold header; cbn [new_ProjectItem ProjectItem_renderContent
      h3_textContent]. unfold persons; cbn [project]. now rewrite E.
  - intros n En Nn Sn. rewrite Other.
    + rewrite En. unfold toString, ofZ, safeInteger.
      rewrite Qcanon.Qred_identity by apply Z.gcd_1_r. cbn [Qden Qnum inject_Z].
      apply Z.leb_le in Sn. rewrite Sn. reflexivity.
    + rewrite En. unfold ofZ; cbn [strictEq].
      destruct (Qeq_bool (inject_Z n) (inject_Z 1)) eqn:Hq; [| reflexivity].
      apply Qeq_bool_eq in Hq.
      apply (proj1 (inject_Z_injective n 1)) in Hq. contradiction.
Qed.

(** ** Further properties *)

(** *** Comparisons of integers, texts of numbers *)

Lemma num_gt_ofNat n z : num_gt (ofNat n) (ofZ z) = (z <? Z.of_nat n)%Z.
Proof.
  unfold num_gt, ofNat, ofZ, IsLessThan, Qle_bool; cbn [Qnum Qden inject_Z].
  rewrite !Z.mul_1_r, Z.ltb_antisym. now destruct (Z.of_nat n <=? z)%Z.
Qed.

Lemma num_ge_ofZ a b : num_ge (ofZ a) (ofZ b) = (b <=? a)%Z.
Proof.
  unfold num_ge, ofZ, IsLessThan, Qle_bool; cbn [Qnum Qden inject_Z].
  rewrite !Z.mul_1_r. now destruct (b <=? a)%Z.
Qed.

Lemma num_le_ofZ a b : num_le (ofZ a) (ofZ b) = (a <=? b)%Z.
Proof.
  unfold num_le, ofZ, IsLessThan, Qle_bool; cbn [Qnum Qden inject_Z].
  rewrite !Z.mul_1_r. now destruct (a <=? b)%Z.
Qed.

Lemma required_ok_blank s : required_ok (Some true) s = negb (blank s).
Proof.
  unfold required_ok, blank.
  destruct (forallb isWhiteSpace s) eqn:B.
  - apply trim_nil in B. now rewrite B.
  - destruct (trim s) eqn:T; [| reflexivity].
    apply trim_nil in T. congruence.
Qed.

(** A decimal numeral starts with a digit or the sign. *)
Lemma decimal_not_blank z : blank (decimal z) = false.
Proof.
  unfold decimal, NilZero.string_of_int, NilZero.string_of_uint.
  destruct (Z.to_int z) as [d|d]; destruct d; reflexivity.
Qed.

Lemma toString_not_blank x :
  plain_number x = true -> blank (toString x) = false.
Proof.
  destruct x as [| | |q]; try reflexivity.
  cbn [plain_number JsNumber.toString].
  destruct (safeInteger q); [intros _; apply decimal_not_blank | discriminate].
Qed.

(** *** More on the validator *)

(** X1: without a value, [validate] only looks at [required]: the result
    is false when [required] is true and true otherwise, whatever bounds
    are configured. *)
Theorem validate_without_value :
  forall req minL maxL mn mx,
    validate (mkValidatable None req minL maxL mn mx)
    = match req with Some true => false | _ => true end.
Proof.
  intros req minL maxL mn mx.
  destruct req as [[|]|], minL, maxL, mn, mx; reflexivity.
Qed.

(** X2: bounds of the other kind are ignored: [min] and [max] do not
    bear on a string value (not even on the text of a number, such as
    "6" against a [max] of 5), and [minLength] and [maxLength] do not bear
    on a number. *)
Theorem validate_ignores_bounds_of_other_kind :
  (forall s req minL maxL mn mx,
     validate (mkValidatable (Some (Str s)) req minL maxL mn mx)
     = validate (mkValidatable (Some (Str s)) req minL maxL None None))
  /\ (forall v req minL maxL mn mx,
        validate (mkValidatable (Some (Num v)) req minL maxL mn mx)
        = validate (mkValidatable (Some (Num v)) req None None mn mx))
  /\ validate (mkValidatable (Some (Str (js "6"))) (Some true) None None
                 (Some (ofZ 1)) (Some (ofZ 5))) = true.
Proof.
  split; [| split].
  - intros. now rewrite !validate_string.
  - intros. now rewrite !validate_number.
  - reflexivity.
Qed.

(** X3: [required] never rejects a number: for [NaN], an infinity or a
    safe integer (zero among them) the result with [required] is the
    result without it. *)
Theorem validate_required_idle_on_numbers :
  forall v minL maxL mn mx,
    plain_number v = true ->
    validate (mkValidatable (Some (Num v)) (Some true) minL maxL mn mx)
    = validate (mkValidatable (Some (Num v)) None minL maxL mn mx).
Proof.
  intros v minL maxL mn mx P.
  rewrite !validate_number, orEmpty_Some, required_ok_blank.
  now rewrite (toString_not_blank v P).
Qed.

(** *** More on the form *)

Lemma validate_titleValidation t :
  validate (titleValidation t) = negb (blank t).
Proof.
  unfold titleValidation. rewrite validate_string, required_ok_blank.
  cbn [bound_ok]. now rewrite !andb_true_r.
Qed.

Lemma validate_descriptionValidation d :
  validate (descriptionValidation d)
  = negb (blank d) && (5 <? List.length d).
Proof.
  unfold descriptionValidation. rewrite validate_string, required_ok_blank.
  cbn [bound_ok]. rewrite andb_true_r, num_gt_ofNat. f_equal.
  destruct (Nat.ltb_spec 5 (List.length d)), (Z.ltb_spec 5 (Z.of_nat (List.length d)));
    (reflexivity || lia).
Qed.

Lemma validate_peopleValidation p :
  validate (peopleValidation p)
  = negb (blank (toString (ToNumber p)))
    && num_ge (ToNumber p) (ofZ 1) && num_le (ToNumber p) (ofZ 5).
Proof.
  unfold peopleValidation.
  now rewrite validate_number, orEmpty_Some, required_ok_blank.
Qed.

Lemma ToNumber_blank s : blank s = true -> ToNumber s = ofZ 0.
Proof.
  intros B. apply trim_nil in B. unfold JsNumber.ToNumber. now rewrite B.
Qed.

Lemma ToNumber_small n : (1 <= n <= 5)%Z -> ToNumber (decimal n) = ofZ n.
Proof.
  intros R.
  assert (C : (n = 1 \/ n = 2 \/ n = 3 \/ n = 4 \/ n = 5)%Z) by lia.
  destruct C as [-> | [-> | [-> | [-> | ->]]]]; reflexivity.
Qed.

Lemma gatherUserInput_accepts_eq w :
  let f := projectInput (ui w) in
  let t := titleInputElement f in
  let d := descriptionInputElement f in
  let v := ToNumber (peopleInputElement f) in
  gatherUserInput w =
  if negb (blank t)
     && (negb (blank d) && (5 <? List.length d))
     && (negb (blank (toString v)) && num_ge v (ofZ 1) && num_le v (ofZ 5))
  then (Some (t, d, v), w)
  else (None, exec (alert (js "Invalid input, please try again")) w).
Proof.
  cbn zeta. rewrite gatherUserInput_eq. cbn zeta.
  rewrite validate_titleValidation, validate_descriptionValidation,
    validate_peopleValidation.
  destruct (negb (blank _)); [| reflexivity].
  destruct (negb (blank _) && _); [| reflexivity].
  now destruct (negb (blank _) && _ && _).
Qed.

Lemma submit_accepted w t d n :
  fst (gatherUserInput w) = Some (t, d, n) ->
  exec submitHandler w = exec clearInputs (exec (addProject t d n) w)
  /\ t = titleInputElement (projectInput (ui w))
  /\ d = descriptionInputElement (projectInput (ui w))
  /\ n = ToNumber (peopleInputElement (projectInput (ui w))).
Proof.
  rewrite submitHandler_eq, gatherUserInput_eq. cbn zeta.
  destruct (_ || _ || _); cbn [fst]; [discriminate |].
  intros E. injection E as <- <- <-. repeat split.
Qed.

(** X4: what the form accepts.  [gatherUserInput] returns the texts of
    the title and of the description and the number of the people field,
    and changes nothing, exactly when the title is not blank, the
    description is not blank and has more than five code units (white
    space counted), and the number is at least 1 and at most 5 (with a
    text that is not blank); otherwise it alerts and returns nothing. *)
Theorem gatherUserInput_accepts :
  forall w : World,
    let f := projectInput (ui w) in
    let t := titleInputElement f in
    let d := descriptionInputElement f in
    let v := ToNumber (peopleInputElement f) in
    gatherUserInput w =
    if negb (blank t)
       && (negb (blank d) && (5 <? List.length d))
       && (negb (blank (toString v))
           && num_ge v (ofZ 1) && num_le v (ofZ 5))
    then (Some (t, d, v), w)
    else (None, exec (alert (js "Invalid input, please try again")) w).
Proof. exact gatherUserInput_accepts_eq. Qed.

(** X5: a submission is refused when the title is blank, when the
    description is blank or has at most five code units, and when the
    people field is blank (its number is then 0, below the minimum). *)
Theorem gatherUserInput_refuses_blank_or_short :
  forall w : World,
    let f := projectInput (ui w) in
    blank (titleInputElement f) = true
    \/ blank (descriptionInputElement f) = true
    \/ List.length (descriptionInputElement f) <= 5
    \/ blank (peopleInputElement f) = true ->
    gatherUserInput w
    = (None, exec (alert (js "Invalid input, please try again")) w).
Proof.
  intros w f H. rewrite gatherUserInput_accepts_eq. cbn zeta. fold f.
  destruct H as [H | [H | [H | H]]].
  - now rewrite H.
  - rewrite H. cbn. now rewrite andb_false_r.
  - apply Nat.ltb_ge in H. rewrite H. now rewrite !andb_false_r.
  - rewrite (ToNumber_blank _ H), num_ge_ofZ. cbn.
    now rewrite !andb_false_r.
Qed.

(** X6: an accepted submission adds exactly the project of the three
    fields, with one fresh draw for its identifier, calls every listener
    once, in the order of registration, each with an array of its own
    that holds the full list, and then empties the three fields: the
    user interface is what the listeners, one after the other, made of
    it, with the fields emptied whatever the listeners did. *)
Theorem submit_accepted_adds_and_clears :
  forall (w : World) (t d : jsstring) (n : number),
    well_formed w ->
    fst (gatherUserInput w) = Some (t, d, n) ->
    let w' := exec submitHandler w in
    stored w' = stored w ++ [newProject w t d n]
    /\ t = titleInputElement (projectInput (ui w))
    /\ d = descriptionInputElement (projectInput (ui w))
    /\ n = ToNumber (peopleInputElement (projectInput (ui w)))
    /\ projectInput (ui w') = mkProjectInput [] [] []
    /\ List.length (calls w')
       = List.length (calls w) + List.length (listeners (projectState w))
    /\ projectState w' = projectState w
    /\ drawn w' = S (drawn w)
    /\ calls w' =
       calls w ++ List.map (fun i => (i, List.length (heap w) + i, stored w'))
                    (seq 0 (List.length (listeners (projectState w))))
    /\ ui w' =
       set_projectInput (fun _ => mkProjectInput [] [] [])
         (fold_left (fun u il =>
             snd il (List.length (heap w) + fst il)
               (take (List.length (heap w) + S (fst il)) (heap w')) u)
            (combine (seq 0 (List.length (listeners (projectState w))))
               (listeners (projectState w)))
            (ui w)).
Proof.
  intros w t d n WF A w'.
  destruct (submit_accepted w t d n A) as (E & Ht & Hd & Hn).
  destruct (addProject_effect w t d n WF) as (Hh & Hc & Hp & _ & Hdr).
  pose proof (addProject_ui w t d n WF) as Hu. cbn zeta in Hu.
  assert (S : stored (exec (addProject t d n) w)
              = stored w ++ [newProject w t d n]).
  { unfold stored. rewrite Hh, Hp.
    rewrite Array_contents_app_l by now rewrite length_alter_heap.
    now rewrite Array_contents_alter_eq. }
  unfold w'. rewrite E.
  change (stored (exec clearInputs (exec (addProject t d n) w)))
    with (stored (exec (addProject t d n) w)).
  change (calls (exec clearInputs (exec (addProject t d n) w)))
    with (calls (exec (addProject t d n) w)).
  change (heap (exec clearInputs (exec (addProject t d n) w)))
    with (heap (exec (addProject t d n) w)).
  change (ui (exec clearInputs (exec (addProject t d n) w)))
    with (set_projectInput (fun _ => mkProjectInput [] [] [])
            (ui (exec (addProject t d n) w))).
  split; [exact S |]. repeat split; try assumption.
  - rewrite Hc, length_app, length_map, length_seq. reflexivity.
  - now rewrite S.
  - now rewrite <- Hu.
Qed.

(** X7: a submission cannot be repeated by accident: right after an
    accepted submission the fields are empty, so that submitting again
    only shows the alert and adds nothing. *)
Theorem submit_twice_adds_once :
  forall (w : World) (t d : jsstring) (n : number),
    fst (gatherUserInput w) = Some (t, d, n) ->
    let w1 := exec submitHandler w in
    let w2 := exec submitHandler w1 in
    w2 = exec (alert (js "Invalid input, please try again")) w1
    /\ stored w2 = stored w1
    /\ calls w2 = calls w1.
Proof.
  intros w t d n A w1 w2.
  destruct (submit_accepted w t d n A) as (E & _).
  assert (F : projectInput (ui w1) = mkProjectInput [] [] []).
  { unfold w1. now rewrite E. }
  assert (R : w2 = exec (alert (js "Invalid input, please try again")) w1).
  { unfold w2. rewrite submitHandler_eq. cbn zeta. now rewrite F. }
  split; [exact R |]. now rewrite R.
Qed.

(** *** The page over time *)

Lemma addProject_stored w t d n :
  well_formed w ->
  let w' := exec (addProject t d n) w in
  stored w' = stored w ++ [newProject w t d n]
  /\ well_formed w'
  /\ projectState w' = projectState w
  /\ entropy w' = entropy w
  /\ drawn w' = S (drawn w).
Proof.
  intros WF w'.
  destruct (addProject_effect w t d n WF) as (Hh & _ & Hp & He & Hd).
  fold w' in Hh, Hp, He, Hd.
  repeat split; try assumption.
  - unfold stored. rewrite Hh, Hp.
    rewrite Array_contents_app_l by now rewrite length_alter_heap.
    now rewrite Array_contents_alter_eq.
  - unfold well_formed in *. rewrite Hh, Hp, length_app, length_alter_heap.
    lia.
Qed.

Lemma filter_status_all (l : list Project) :
  Forall (fun p => status p = Active) l ->
  List.filter (fun p => ProjectStatus_eqb (status p) Active) l = l
  /\ List.filter (fun p => ProjectStatus_eqb (status p) Finished) l = [].
Proof.
  induction 1 as [|p l Hp _ [IHa IHf]]; [now split |].
  cbn [List.filter]. rewrite Hp, IHa, IHf. now split.
Qed.

Lemma page_invariant_main entropy : page_invariant (main entropy).
Proof.
  split; [unfold well_formed; cbn; lia |].
  split; [reflexivity |]. split; [constructor |]. split; [| constructor].
  eexists _, _. repeat split.
Qed.

Lemma page_invariant_addProject w t d n :
  page_invariant w -> page_invariant (exec (addProject t d n) w).
Proof.
  intros (WF & Hls & Hact & (la & lf & Hpl & Ha & Has & Hel & Hf & _ & _)
          & Hal).
  destruct (addProject_stored w t d n WF) as (Hs & WF' & Hp & _ & _).
  destruct (addProject_on_page w t d n la lf WF Hls Hpl Ha Hf)
    as (Hl & _ & Halerts).
  destruct (filter_status_all (stored w) Hact) as (Fa & Ff).
  rewrite Fa, Ff in Hl.
  split; [exact WF' |]. split; [now rewrite Hp |].
  split; [rewrite Hs; apply Forall_app; split;
          [exact Hact | repeat constructor] |].
  split; [| now rewrite Halerts].
  eexists _, _. split; [exact Hl |].
  cbn [type assignedProjects listEl]. rewrite Hs. repeat split.
Qed.

Lemma page_invariant_mark (f : ProjectList -> ProjectList) this w :
  (forall self,
     type (f self) = type self
     /\ assignedProjects (f self) = assignedProjects self
     /\ listEl (f self) = listEl self) ->
  page_invariant w ->
  page_invariant (exec (set_ui (set_projectLists (alter f this))) w).
Proof.
  intros Hf (WF & Hls & Hact & (la & lf & Hpl & Ha & Has & Hel & Hfi & Hfs
                                & Hfe) & Hal).
  split; [exact WF |]. split; [exact Hls |]. split; [exact Hact |].
  split; [| exact Hal].
  unfold in_step, exec, set_ui, set_projectLists;
    cbn [snd ui projectLists]. rewrite Hpl.
  change (stored _) with (stored w).
  destruct (Hf la) as (T1 & A1 & E1), (Hf lf) as (T2 & A2 & E2).
  destruct this as [|[|this]]; cbn; eexists _, _;
    (split; [reflexivity |]); repeat split; congruence.
Qed.

Lemma page_invariant_run a w :
  page_invariant w -> registers_nothing a = true ->
  page_invariant (exec (run a) w).
Proof.
  intros I Ra.
  assert (Same : forall f : ProjectInput -> ProjectInput,
            page_invariant (exec (set_ui (set_projectInput f)) w)).
  { intros f.
    destruct I as (WF & Hls & Hact & (la & lf & Hpl & Hrest) & Hal).
    split; [exact WF |]. split; [exact Hls |]. split; [exact Hact |].
    split; [| exact Hal]. now exists la, lf. }
  destruct a as [text|text|text| |l e|l e|l e|t d n|listenerFn];
    cbn [run]; try discriminate Ra; try apply Same;
    try apply page_invariant_addProject; try exact I.
  - rewrite submitHandler_eq. cbn zeta. destruct (_ || _ || _).
    + destruct I as (WF & Hls & Hact & (la & lf & Hpl & Hrest) & Hal).
      split; [exact WF |]. split; [exact Hls |]. split; [exact Hact |].
      split; [now exists la, lf |].
      unfold exec, alert, set_ui; cbn [snd ui alerts].
      apply Forall_app. split; [exact Hal | now repeat constructor].
    + pose proof (page_invariant_addProject w
                    (titleInputElement (projectInput (ui w)))
                    (descriptionInputElement (projectInput (ui w)))
                    (ToNumber (peopleInputElement (projectInput (ui w)))) I)
        as (WF & Hls & Hact & (la & lf & Hpl & Hrest) & Hal).
      split; [exact WF |]. split; [exact Hls |]. split; [exact Hact |].
      split; [now exists la, lf | exact Hal].
  - unfold dragOverHandler.
    destruct (dataTransfer e) as [dt|]; [| exact I].
    destruct (types dt) as [|ty tys]; [exact I |].
    destruct (bool_decide _); [| exact I].
    apply page_invariant_mark; [| exact I]. now intros self.
  - apply page_invariant_mark; [| exact I]. now intros self.
Qed.

Lemma page_invariant_runs actions : forall w,
  page_invariant w -> quiet actions = true ->
  page_invariant (runs actions w).
Proof.
  induction actions as [|a actions IH]; intros w I Q; [exact I |].
  cbn [quiet forallb] in Q. apply andb_true_iff in Q as [Qa Q].
  cbn [runs fold_left]. apply IH; [| exact Q].
  now apply page_invariant_run.
Qed.

(** X8: the lists follow the store.  After [main] and any actions that
    register no listener, the page has its two lists, the active list
    holds and renders exactly the stored projects, in the order they were
    added, and the finished list holds and renders nothing. *)
Theorem page_lists_follow_store :
  forall (entropy : nat -> Q) (actions : list Action),
    quiet actions = true ->
    in_step (runs actions (main entropy)).
Proof.
  intros entropy actions Q.
  apply (page_invariant_runs actions (main entropy)
           (page_invariant_main entropy) Q).
Qed.

(** X9: the page never says anything but its one message: after [main]
    and any actions that register no listener, every alert shown is
    "Invalid input, please try again". *)
Theorem page_alerts_are_the_message :
  forall (entropy : nat -> Q) (actions : list Action),
    quiet actions = true ->
    Forall (fun m => m = js "Invalid input, please try again")
      (alerts (ui (runs actions (main entropy)))).
Proof.
  intros entropy actions Q.
  apply (page_invariant_runs actions (main entropy)
           (page_invariant_main entropy) Q).
Qed.

(** *** Identifiers *)

(** An action draws from [Math.random] exactly when it adds a project. *)
Lemma run_draws a w :
  well_formed w ->
  let w' := exec (run a) w in
  entropy w' = entropy w
  /\ ((stored w' = stored w /\ drawn w' = drawn w)
      \/ (exists t d n,
            stored w' = stored w ++ [newProject w t d n]
            /\ drawn w' = S (drawn w))).
Proof.
  intros WF.
  assert (Add : forall t d n,
            entropy (exec (addProject t d n) w) = entropy w
            /\ ((stored (exec (addProject t d n) w) = stored w
                 /\ drawn (exec (addProject t d n) w) = drawn w)
                \/ (exists t' d' n',
                      stored (exec (addProject t d n) w)
                      = stored w ++ [newProject w t' d' n']
                      /\ drawn (exec (addProject t d n) w) = S (drawn w)))).
  { intros t d n.
    destruct (addProject_stored w t d n WF) as (Hs & _ & _ & He & Hd).
    split; [exact He |]. right. now exists t, d, n. }
  destruct a as [text|text|text| |l e|l e|l e|t d n|listenerFn];
    cbn zeta; cbn [run]; try apply Add;
    try (split; [reflexivity | left; split; reflexivity]).
  - rewrite submitHandler_eq. cbn zeta.
    destruct (_ || _ || _);
      [split; [reflexivity | left; split; reflexivity] | apply Add].
  - unfold dragOverHandler.
    destruct (dataTransfer e) as [dt|];
      [| split; [reflexivity | left; split; reflexivity]].
    destruct (types dt) as [|ty tys];
      [split; [reflexivity | left; split; reflexivity] |].
    destruct (bool_decide _);
      split; (reflexivity || (left; split; reflexivity)).
Qed.

(** X10: identifiers are the draws, in order.  In every state the page
    can reach, as many numbers were drawn from [Math.random] as projects
    are stored, and the identifier of the project at position [i] is the
    text of the draw of rank [i]; two projects whose draws are equal have
    the same identifier. *)
Theorem identifiers_are_the_draws :
  forall w : World,
    reachable w ->
    drawn w = List.length (stored w)
    /\ (forall i p, stored w !! i = Some p ->
          id p = toString (Fin (entropy w i)))
    /\ (forall i j p q,
          stored w !! i = Some p -> stored w !! j = Some q ->
          entropy w i = entropy w j -> id p = id q).
Proof.
  intros w R.
  assert (H : well_formed w
              /\ drawn w = List.length (stored w)
              /\ (forall i p, stored w !! i = Some p ->
                    id p = toString (Fin (entropy w i)))).
  { induction R as [entropy | a w R (WF & Hd & Hid)].
    - split; [unfold well_formed; cbn; lia |]. split; [reflexivity |].
      intros i p E. destruct i; discriminate E.
    - destruct (run_stored a w WF) as (WF' & _).
      destruct (run_draws a w WF) as (He & [[Hs Hdr] | (t & d & n & Hs & Hdr)]).
      + split; [exact WF' |]. rewrite Hs, Hdr, He. now split.
      + split; [exact WF' |]. rewrite Hs, Hdr, He, length_app.
        split; [cbn; lia |].
        intros i p E. apply lookup_app_Some in E as [E | [L E]].
        * now apply Hid.
        * apply list_lookup_singleton_Some in E as [E <-].
          cbn [id newProject]. rewrite Hd. do 3 f_equal. lia. }
  destruct H as (_ & Hd & Hid).
  split; [exact Hd |]. split; [exact Hid |].
  intros i j p q Ei Ej E. rewrite (Hid i p Ei), (Hid j q Ej). now rewrite E.
Qed.

(** *** Notifications and drag events *)

Lemma UI_ext (a b : UI) :
  projectInput a = projectInput b -> projectLists a = projectLists b ->
  alerts a = alerts b -> a = b.
Proof. destruct a, b; cbn; congruence. Qed.

(** X11: the last notification wins.  What a list holds and renders
    after a notification depends on the array of that notification only:
    an earlier notification leaves no trace, and notifying twice with the
    same array is notifying once (nothing is rendered twice). *)
Theorem last_notification_wins :
  forall (this : nat) (items items' : loc) (h h' : Heap) (u : UI),
    ProjectList_listener this items h (ProjectList_listener this items' h' u)
    = ProjectList_listener this items h u.
Proof.
  intros this items items' h h' u.
  destruct (projectLists u !! this) as [self|] eqn:E.
  - destruct (ProjectList_listener_effect this items' h' u self E)
      as (L1 & I1 & A1).
    set (u1 := ProjectList_listener this items' h' u) in *.
    set (self1 := mkProjectList _ _ _ _) in L1.
    assert (E1 : projectLists u1 !! this = Some self1).
    { rewrite L1. apply list_lookup_insert_eq.
      apply lookup_lt_is_Some. now exists self. }
    destruct (ProjectList_listener_effect this items h u1 self1 E1)
      as (L2 & I2 & A2).
    destruct (ProjectList_listener_effect this items h u self E)
      as (L & I & A).
    apply UI_ext; [congruence | | congruence].
    rewrite L2, L, L1. unfold self1; cbn [type droppable].
    apply list_insert_insert_eq.
  - assert (N : forall i g, ProjectList_listener this i g u = u).
    { intros i g. unfold ProjectList_listener. now rewrite E. }
    now rewrite !N.
Qed.

Lemma mark_twice (f g : ProjectList -> ProjectList) this w :
  (forall x, f (g x) = f x) ->
  exec (set_ui (set_projectLists (alter f this)))
    (exec (set_ui (set_projectLists (alter g this))) w)
  = exec (set_ui (set_projectLists (alter f this))) w.
Proof.
  intros H. unfold exec, set_ui, set_projectLists;
    cbn [snd heap projectState ui calls entropy drawn projectInput
         projectLists alerts].
  rewrite list_alter_alter_eq.
  do 2 f_equal. apply list_alter_ext; [intros x _; apply H | reflexivity].
Qed.

(** X12: leaving undoes entering.  A drag-leave after a drag-over of the
    same list leaves the state a drag-leave alone leaves, whatever the
    events carry; a second drag-leave and a second drag-over of the same
    event change nothing more. *)
Theorem dragLeave_undoes_dragOver :
  forall (this : nat) (e e' : DragEvent) (w : World),
    exec (dragLeaveHandler this e') (exec (dragOverHandler this e) w)
    = exec (dragLeaveHandler this e') w
    /\ exec (dragLeaveHandler this e') (exec (dragLeaveHandler this e) w)
       = exec (dragLeaveHandler this e) w
    /\ exec (dragOverHandler this e) (exec (dragOverHandler this e) w)
       = exec (dragOverHandler this e) w.
Proof.
  intros this e e' w. split; [| split].
  - unfold dragOverHandler.
    destruct (dataTransfer e) as [dt|]; [| reflexivity].
    destruct (types dt) as [|ty tys]; [reflexivity |].
    destruct (bool_decide _); [| reflexivity].
    unfold dragLeaveHandler. now apply mark_twice.
  - unfold dragLeaveHandler. now apply mark_twice.
  - unfold dragOverHandler.
    destruct (dataTransfer e) as [dt|]; [| reflexivity].
    destruct (types dt) as [|ty tys]; [reflexivity |].
    destruct (bool_decide _); [| reflexivity].
    now apply mark_twice.
Qed.

Lemma map_unmarked_alter (f : ProjectList -> ProjectList) this l :
  (forall x, unmarked (f x) = unmarked x) ->
  List.map unmarked (alter f this l) = List.map unmarked l.
Proof.
  intros H. revert this.
  induction l as [|x l IH]; intros [|this]; cbn; [reflexivity .. | |].
  - now rewrite H.
  - f_equal. apply IH.
Qed.

(** X13: dragging moves nothing.  A drag-over, a drag-leave or a drop on
    a list changes at most the mark of a list: the store and its arrays,
    the form, the alerts and what every list holds and renders are as
    before. *)
Theorem dragging_changes_only_the_mark :
  forall (a : Action) (w : World),
    drag_action a = true ->
    let w' := exec (run a) w in
    heap w' = heap w
    /\ projectState w' = projectState w
    /\ calls w' = calls w
    /\ drawn w' = drawn w
    /\ projectInput (ui w') = projectInput (ui w)
    /\ alerts (ui w') = alerts (ui w)
    /\ List.map unmarked (projectLists (ui w'))
       = List.map unmarked (projectLists (ui w)).
Proof.
  intros a w D.
  destruct a as [text|text|text| |l e|l e|l e|t d n|listenerFn];
    try discriminate D; cbn zeta; cbn [run].
  - unfold dragOverHandler.
    destruct (dataTransfer e) as [dt|]; [| repeat split].
    destruct (types dt) as [|ty tys]; [repeat split |].
    destruct (bool_decide _); [| repeat split].
    repeat split. now apply map_unmarked_alter.
  - repeat split. now apply map_unmarked_alter.
  - repeat split.
Qed.

Lemma setData_text_plain x d :
  setData (js "text/plain") x d
  = mkDataTransfer
      (List.filter (fun e => negb (bool_decide (fst e = js "text/plain")))
         (items d) ++ [(js "text/plain", x)])
      (effectAllowed d).
Proof. reflexivity. Qed.

(** The first format once [f] was set: [f] itself exactly when no entry
    of another format was there. *)
Lemma first_type_after_set (f x : jsstring) entries :
  match List.map fst
          (List.filter (fun e => negb (bool_decide (fst e = f))) entries
           ++ [(f, x)])
  with
  | t :: _ => bool_decide (t = f)
  | [] => false
  end
  = forallb (fun t => bool_decide (t = f)) (List.map fst entries).
Proof.
  induction entries as [|e entries IH]; cbn [List.filter List.map forallb app].
  - now rewrite bool_decide_eq_true_2.
  - destruct (bool_decide (fst e = f)) eqn:B; cbn [negb andb]; [exact IH |].
    cbn [List.map app]. exact B.
Qed.

(** X14: what a drag carries.  [dragStartHandler] fails on an event
    without data transfer; otherwise it allows the effect "move", drops
    the entry of format [text/plain] if there was one and adds the
    identifier of the project as the entry of that format, at the end,
    the entries of the other formats being kept in their order.  A list
    then accepts the event (a drag-over marks it) exactly when the data
    transfer carried no entry of another format. *)
Theorem dragStart_then_dragOver :
  forall (item : ProjectItem) (d : DataTransfer),
    dragStartHandler item (mkDragEvent None) = None
    /\ exists d' : DataTransfer,
         dragStartHandler item (mkDragEvent (Some d))
         = Some (mkDragEvent (Some d'))
         /\ effectAllowed d' = js "move"
         /\ items d'
            = List.filter
                (fun e => negb (bool_decide (fst e = js "text/plain")))
                (items d)
              ++ [(js "text/plain", id (project item))]
         /\ (forall y, In (js "text/plain", y) (items d')
                       <-> y = id (project item))
         /\ (forall fmt y, fmt <> js "text/plain" ->
               (In (fmt, y) (items d') <-> In (fmt, y) (items d)))
         /\ (forall (this : nat) (w : World),
               exec (dragOverHandler this (mkDragEvent (Some d'))) w
               = if forallb (fun t => bool_decide (t = js "text/plain"))
                      (types d)
                 then exec (set_ui (set_projectLists (alter (fun self =>
                        mkProjectList (type self) (assignedProjects self)
                          (listEl self) true) this))) w
                 else w).
Proof.
  intros item d. split; [reflexivity |].
  eexists. split; [reflexivity |]. cbn [effectAllowed items].
  rewrite setData_text_plain. cbn [items].
  split; [reflexivity |]. split; [reflexivity |]. split; [| split].
  - intros y. rewrite in_app_iff, filter_In. cbn [In fst]. split.
    + intros [[_ B] | [E | []]].
      * now rewrite bool_decide_eq_true_2 in B.
      * now injection E as <-.
    + intros ->. right. now left.
  - intros fmt y N. rewrite in_app_iff, filter_In. cbn [In fst]. split.
    + intros [[I _] | [E | []]]; [exact I |].
      injection E as <- _. contradiction.
    + intros I. left. split; [exact I |].
      now rewrite bool_decide_eq_false_2.
  - intros this w. unfold dragOverHandler, types at 1;
      cbn [dataTransfer items].
    pose proof (first_type_after_set (js "text/plain") (id (project item))
                  (items d)) as F.
    fold (types d) in F.
    destruct (List.map fst _) as [|ty tys]; rewrite <- F; [reflexivity |].
    now destruct (bool_decide (ty = js "text/plain")).
Qed.

(** *** From the form to the list *)

Lemma plain_small n : (1 <= n <= 5)%Z -> plain_number (ofZ n) = true.
Proof.
  intros R.
  assert (C : (n = 1 \/ n = 2 \/ n = 3 \/ n = 4 \/ n = 5)%Z) by lia.
  destruct C as [-> | [-> | [-> | [-> | ->]]]]; reflexivity.
Qed.

Lemma header_small prj n :
  (1 <= n <= 5)%Z -> people prj = ofZ n ->
  h3_textContent (new_ProjectItem prj)
  = if (n =? 1)%Z then js "1 Person assigned"
    else decimal n ++ js " Persons assigned".
Proof.
  intros R E.
  cbn [new_ProjectItem ProjectItem_renderContent h3_textContent].
  unfold persons; cbn [project]. rewrite E.
  assert (C : (n = 1 \/ n = 2 \/ n = 3 \/ n = 4 \/ n = 5)%Z) by lia.
  destruct C as [-> | [-> | [-> | [-> | ->]]]]; reflexivity.
Qed.

(** X15: from the form to the list.  On the page, typing a title that is
    not blank, a description that is not blank and has more than five
    code units, and a count of people from 1 to 5, then submitting, stores
    the project with exactly these values, empties the form, shows no
    alert, and renders the project last in the active list - its title,
    its description and the header "1 Person assigned" or "n Persons
    assigned" - and not in the finished list. *)
Theorem typed_project_is_shown :
  forall (w : World) (t d : jsstring) (n : Z),
    well_formed w ->
    page_shape w ->
    blank t = false ->
    blank d = false ->
    5 < List.length d ->
    (1 <= n <= 5)%Z ->
    let typed :=
      runs [Type_title t; Type_description d; Type_people (decimal n)] w in
    let w' := exec submitHandler typed in
    let added := newProject w t d (ofZ n) in
    stored w' = stored w ++ [added]
    /\ projectInput (ui w') = mkProjectInput [] [] []
    /\ alerts (ui w') = alerts (ui w)
    /\ exists activeList finishedList earlier shown,
         projectLists (ui w') = [activeList; finishedList]
         /\ listEl activeList = earlier ++ [shown]
         /\ project shown = added
         /\ h2_textContent shown = t
         /\ h3_textContent shown
            = (if (n =? 1)%Z then js "1 Person assigned"
               else decimal n ++ js " Persons assigned")
         /\ p_textContent shown = d
         /\ Forall (fun item => project item <> added) (listEl finishedList).
Proof.
  intros w t d n WF (Hls & la & lf & Hpl & Ha & Hf) Bt Bd Ld Rn
    typed w' added.
  assert (A : fst (gatherUserInput typed) = Some (t, d, ofZ n)).
  { rewrite gatherUserInput_accepts_eq. cbn zeta.
    change (titleInputElement (projectInput (ui typed))) with t.
    change (descriptionInputElement (projectInput (ui typed))) with d.
    change (peopleInputElement (projectInput (ui typed))) with (decimal n).
    rewrite (ToNumber_small n Rn), Bt, Bd.
    rewrite (toString_not_blank _ (plain_small n Rn)).
    rewrite num_ge_ofZ, num_le_ofZ.
    apply Nat.ltb_lt in Ld. rewrite Ld.
    destruct Rn as [R1 R5]. apply Z.leb_le in R1, R5. now rewrite R1, R5. }
  destruct (submit_accepted typed t d (ofZ n) A) as (E & _).
  assert (WFt : well_formed typed) by exact WF.
  destruct (addProject_stored typed t d (ofZ n) WFt) as (Hs & _).
  destruct (addProject_on_page typed t d (ofZ n) la lf WFt Hls Hpl Ha Hf)
    as (Hl & _ & Hal).
  change (newProject typed t d (ofZ n)) with added in Hs, Hl.
  change (stored typed) with (stored w) in Hs, Hl.
  unfold w'. rewrite E.
  split; [exact Hs |]. split; [reflexivity |]. split; [exact Hal |].
  eexists _, _, _, (new_ProjectItem added).
  split; [exact Hl |]. cbn [listEl]. rewrite List.map_app.
  split; [reflexivity |]. split; [reflexivity |]. split; [reflexivity |].
  split; [now apply header_small |]. split; [reflexivity |].
  apply List.Forall_forall. intros item I.
  apply in_map_iff in I as (p & <- & Ip).
  apply filter_In in Ip as [_ Ip]. cbn [project new_ProjectItem
    ProjectItem_renderContent]. intros ->. discriminate Ip.
Qed.

End Program.

(** ** The properties on concrete inputs *)

Lemma validate_length_equal_to_bound_invalid_witness :
  strictEq (ofNat (List.length (js "hello"))) (ofZ 5) = true
  /\ validate unrounded_toString
       (mkValidatable (Some (Str (js "hello"))) (Some true) (Some (ofZ 5))
          None None None) = false
  /\ validate unrounded_toString
       (mkValidatable (Some (Str (js "hello"))) (Some true) None
          (Some (ofZ 5)) None None) = false.
Proof.
  split; [reflexivity |].
  apply (validate_length_equal_to_bound_invalid unrounded_toString
           (js "hello") (ofZ 5) (Some true) None None None None).
  reflexivity.
Defined.

Lemma validate_maxLength_inverted_witness :
  (num_le (ofNat (List.length (js "hi"))) (ofZ 5) = true
   /\ validate unrounded_toString
        (mkValidatable (Some (Str (js "hi"))) None None (Some (ofZ 5))
           None None) = false)
  /\ (num_gt (ofNat (List.length (js "too long"))) (ofZ 5) = true
      /\ validate unrounded_toString
           (mkValidatable (Some (Str (js "too long"))) None None
              (Some (ofZ 5)) None None)
         = validate unrounded_toString
             (mkValidatable (Some (Str (js "too long"))) None None None
                None None)).
Proof.
  split; (split; [reflexivity |]).
  - destruct (validate_maxLength_inverted unrounded_toString (js "hi")
                (ofZ 5) None None None None) as (_ & _ & H).
    apply H. reflexivity.
  - destruct (validate_maxLength_inverted unrounded_toString (js "too long")
                (ofZ 5) None None None None) as (_ & H & _).
    apply H. reflexivity.
Defined.

Lemma validate_numeric_bounds_inclusive_witness :
  (num_lt (ofZ 0) (ofZ 1) = true
   /\ validate unrounded_toString
        (mkValidatable (Some (Num (ofZ 0))) (Some true) None None
           (Some (ofZ 1)) (Some (ofZ 5))) = false)
  /\ (num_gt (ofZ 6) (ofZ 5) = true
      /\ validate unrounded_toString
           (mkValidatable (Some (Num (ofZ 6))) (Some true) None None
              (Some (ofZ 1)) (Some (ofZ 5))) = false)
  /\ (strictEq (ofZ 5) (ofZ 5) = true
      /\ validate unrounded_toString
           (mkValidatable (Some (Num (ofZ 5))) None None None
              None (Some (ofZ 5))) = true
      /\ validate unrounded_toString
           (mkValidatable (Some (Num (ofZ 5))) None None None
              (Some (ofZ 5)) None) = true).
Proof.
  split; [| split]; (split; [reflexivity |]).
  - destruct (validate_numeric_bounds_inclusive unrounded_toString (ofZ 0)
                (ofZ 1) (Some true) None None None (Some (ofZ 5)))
      as (H & _ & _).
    apply H. reflexivity.
  - destruct (validate_numeric_bounds_inclusive unrounded_toString (ofZ 6)
                (ofZ 5) (Some true) None None (Some (ofZ 1)) None)
      as (_ & H & _).
    apply H. reflexivity.
  - destruct (validate_numeric_bounds_inclusive unrounded_toString (ofZ 5)
                (ofZ 5) None None None None None) as (_ & _ & H).
    destruct (H eq_refl) as (_ & _ & Hmin & Hmax & _).
    split; assumption.
Defined.

(** C6 as the specification words it fails: a string of one space is not
    empty, and with [required] and nothing else configured it is
    invalid. *)
Lemma validate_required_rejects_blank_string :
  ~ (forall (toString_other : Q -> jsstring) (s : jsstring),
       s <> [] ->
       validate toString_other
         (mkValidatable (Some (Str s)) (Some true) None None None None)
       = true).
Proof.
  intros H. specialize (H unrounded_toString (js " ")).
  assert (E : validate unrounded_toString
                (mkValidatable (Some (Str (js " "))) (Some true)
                   None None None None) = false) by reflexivity.
  rewrite H in E; discriminate.
Qed.

Lemma validate_required_witness :
  (forallb isWhiteSpace (js "  ") = true
   /\ validate unrounded_toString
        (mkValidatable (Some (Str (js "  "))) (Some true) None None
           None None) = false)
  /\ (forallb isWhiteSpace (js " a ") = false
      /\ validate unrounded_toString
           (mkValidatable (Some (Str (js " a "))) (Some true) None None
              None None) = true).
Proof.
  split; (split; [reflexivity |]).
  - apply (validate_required unrounded_toString (js "  ") None None None None).
    reflexivity.
  - apply (validate_required unrounded_toString (js " a ") None None None None).
    reflexivity.
Defined.

Lemma addProject_appends_one_witness :
  let w := main unrounded_toString (fun _ => 0%Q) in
  let w' :=
    exec (addProject unrounded_toString (js "Build API")
            (js "Implement REST endpoints") (ofZ 3)) w in
  well_formed w
  /\ exists added : Project,
       stored w' = stored w ++ [added]
       /\ status added = Active
       /\ id added = js "0"
       /\ drawn w' = 1
       /\ title added = js "Build API"
       /\ description added = js "Implement REST endpoints"
       /\ people added = ofZ 3
       /\ List.length (stored w') = 1
       /\ (forall i x, stored w !! i = Some x -> stored w' !! i = Some x).
Proof.
  intros w w'.
  assert (WF : well_formed w) by (unfold well_formed; cbn; lia).
  split; [exact WF |].
  exact (addProject_appends_one unrounded_toString w (js "Build API")
           (js "Implement REST endpoints") (ofZ 3) WF).
Defined.

Lemma addProject_notifies_with_copies_witness :
  let w := main unrounded_toString (fun _ => 0%Q) in
  let w' :=
    exec (addProject unrounded_toString (js "Build API")
            (js "Implement REST endpoints") (ofZ 3)) w in
  let full := stored w' in
  well_formed w
  /\ calls w' = [(0, 1, full); (1, 2, full)]
  /\ heap w' !! 1 = Some full
  /\ heap w' !! 2 = Some full
  /\ (forall actions,
        heap (runs unrounded_toString unrounded_ToNumber actions w') !! 1
        = Some full)
  /\ ui w'
     = ProjectList_listener unrounded_toString 1 2 (take 3 (heap w'))
         (ProjectList_listener unrounded_toString 0 1 (take 2 (heap w'))
            (ui w))
  /\ List.map assignedProjects (projectLists (ui w')) = [full; []].
Proof.
  intros w w' full.
  assert (WF : well_formed w) by (unfold well_formed; cbn; lia).
  split; [exact WF |].
  destruct (addProject_notifies_with_copies unrounded_toString
              unrounded_ToNumber w (js "Build API")
              (js "Implement REST endpoints") (ofZ 3) WF)
    as (Hc & _ & Hs & Hu & _).
  split; [exact Hc |].
  destruct (Hs 0) as (_ & _ & H0 & Hf & _); [cbn; lia |].
  destruct (Hs 1) as (_ & _ & H1 & _); [cbn; lia |].
  split; [exact H0 |]. split; [exact H1 |]. split; [exact Hf |].
  split; [exact Hu | reflexivity].
Defined.

Lemma submit_invalid_only_alerts_witness :
  let page := main unrounded_toString (fun _ => 0%Q) in
  let submitted w :=
    exec (submitHandler unrounded_toString unrounded_ToNumber) w in
  let only_alerts w w' :=
    alerts (ui w') = alerts (ui w) ++ [js "Invalid input, please try again"]
    /\ projectInput (ui w') = projectInput (ui w)
    /\ projectLists (ui w') = projectLists (ui w)
    /\ heap w' = heap w
    /\ stored w' = stored w
    /\ projectState w' = projectState w
    /\ calls w' = calls w
    /\ drawn w' = drawn w in
  let short :=
    runs unrounded_toString unrounded_ToNumber
      [Type_title (js "Build API"); Type_description (js "hi");
       Type_people (js "3")] page in
  let crowded :=
    runs unrounded_toString unrounded_ToNumber
      [Type_title (js "Build API");
       Type_description (js "Implement REST endpoints");
       Type_people (js "6")] page in
  (validate unrounded_toString
     (descriptionValidation
        (descriptionInputElement (projectInput (ui short)))) = false
   /\ only_alerts short (submitted short))
  /\ (validate unrounded_toString
        (peopleValidation unrounded_ToNumber
           (peopleInputElement (projectInput (ui crowded)))) = false
      /\ only_alerts crowded (submitted crowded)).
Proof.
  intros page submitted only_alerts short crowded.
  split; (split; [reflexivity |]).
  - apply (submit_invalid_only_alerts unrounded_toString unrounded_ToNumber
             short).
    right; left; reflexivity.
  - apply (submit_invalid_only_alerts unrounded_toString unrounded_ToNumber
             crowded).
    right; right; reflexivity.
Defined.

Lemma status_is_always_Active_witness :
  let w :=
    runs unrounded_toString unrounded_ToNumber
      [Type_title (js "Build API");
       Type_description (js "Implement REST endpoints");
       Type_people (js "3"); Submit;
       Drop 1 (mkDragEvent None)]
      (main unrounded_toString (fun _ => 0%Q)) in
  reachable unrounded_toString unrounded_ToNumber w
  /\ List.length (stored w) = 1
  /\ Forall (fun p => status p = Active) (stored w).
Proof.
  intros w.
  assert (R : reachable unrounded_toString unrounded_ToNumber w).
  { unfold w, runs; cbn [fold_left].
    repeat apply reachable_run. apply reachable_main. }
  split; [exact R |]. split; [reflexivity |].
  exact (proj1 (status_is_always_Active unrounded_toString
                  unrounded_ToNumber) w R).
Defined.

Lemma ProjectList_renders_matching_projects_witness :
  let w := main unrounded_toString (fun _ => 0%Q) in
  let w' :=
    exec (addProject unrounded_toString (js "Build API")
            (js "Implement REST endpoints") (ofZ 3)) w in
  let added :=
    mkProject (js "0") (js "Build API") (js "Implement REST endpoints")
      (ofZ 3) Active in
  (well_formed w /\ page_shape unrounded_toString w)
  /\ exists activeList' finishedList',
       projectLists (ui w') = [activeList'; finishedList']
       /\ listEl activeList' =
          [mkProjectItem added (Some (js "0")) (js "Build API")
             (js "3 Persons assigned") (js "Implement REST endpoints")]
       /\ listEl finishedList' = [].
Proof.
  intros w w' added.
  assert (WF : well_formed w) by (unfold well_formed; cbn; lia).
  assert (PS : page_shape unrounded_toString w).
  { split; [reflexivity |].
    exists (mkProjectList active [] [] false),
           (mkProjectList finished [] [] false).
    repeat split. }
  split; [split; [exact WF | exact PS] |].
  destruct (proj2 (ProjectList_renders_matching_projects unrounded_toString)
              w (js "Build API") (js "Implement REST endpoints") (ofZ 3)
              WF PS)
    as (a & f & Hl & _ & _ & Ha & _ & _ & Hf & _).
  exists a, f. split; [exact Hl |]. split; [exact Ha | exact Hf].
Defined.

Lemma ProjectItem_header_counts_people_witness :
  let shown n :=
    h3_textContent
      (new_ProjectItem unrounded_toString
         (mkProject (js "0") (js "Build API")
            (js "Implement REST endpoints") (ofZ n) Active)) in
  shown 1%Z = js "1 Person assigned"
  /\ shown 3%Z = js "3 Persons assigned"
  /\ shown 0%Z = js "0 Persons assigned".
Proof.
  intros shown. split; [| split].
  - apply (ProjectItem_header_counts_people unrounded_toString
             (mkProject (js "0") (js "Build API")
                (js "Implement REST endpoints") (ofZ 1) Active)).
    reflexivity.
  - apply (proj2 (proj2 (ProjectItem_header_counts_people unrounded_toString
             (mkProject (js "0") (js "Build API")
                (js "Implement REST endpoints") (ofZ 3) Active))) 3%Z);
      [reflexivity | discriminate | unfold MAX_SAFE_INTEGER; cbn; lia].
  - apply (proj2 (proj2 (ProjectItem_header_counts_people unrounded_toString
             (mkProject (js "0") (js "Build API")
                (js "Implement REST endpoints") (ofZ 0) Active))) 0%Z);
      [reflexivity | discriminate | unfold MAX_SAFE_INTEGER; cbn; lia].
Defined.

Lemma validate_required_idle_on_numbers_witness :
  plain_number (ofZ 0) = true
  /\ validate unrounded_toString
       (mkValidatable (Some (Num (ofZ 0))) (Some true) None None
          (Some (ofZ 1)) (Some (ofZ 5)))
     = validate unrounded_toString
         (mkValidatable (Some (Num (ofZ 0))) None None None
            (Some (ofZ 1)) (Some (ofZ 5))).
Proof.
  split; [reflexivity |].
  apply (validate_required_idle_on_numbers unrounded_toString (ofZ 0)).
  reflexivity.
Defined.

Lemma gatherUserInput_refuses_blank_or_short_witness :
  let w :=
    runs unrounded_toString unrounded_ToNumber
      [Type_title (js "Build API"); Type_description (js "Five!");
       Type_people (js "3")]
      (main unrounded_toString (fun _ => 0%Q)) in
  List.length (descriptionInputElement (projectInput (ui w))) <= 5
  /\ gatherUserInput unrounded_toString unrounded_ToNumber w
     = (None, exec (alert (js "Invalid input, please try again")) w).
Proof.
  intros w.
  assert (L : List.length (descriptionInputElement (projectInput (ui w))) <= 5)
    by (vm_compute; lia).
  split; [exact L |].
  apply (gatherUserInput_refuses_blank_or_short unrounded_toString
           unrounded_ToNumber w).
  right; right; left. exact L.
Defined.

Lemma submit_accepted_adds_and_clears_witness :
  let w :=
    runs unrounded_toString unrounded_ToNumber
      [Type_title (js "Build API");
       Type_description (js "Implement REST endpoints");
       Type_people (js "3")]
      (main unrounded_toString (fun _ => 0%Q)) in
  let w' := exec (submitHandler unrounded_toString unrounded_ToNumber) w in
  let added :=
    mkProject (js "0") (js "Build API") (js "Implement REST endpoints")
      (ofZ 3) Active in
  (well_formed w
   /\ fst (gatherUserInput unrounded_toString unrounded_ToNumber w)
      = Some (js "Build API", js "Implement REST endpoints", ofZ 3))
  /\ stored w' = [added]
  /\ projectInput (ui w') = mkProjectInput [] [] []
  /\ List.length (calls w') = 2
  /\ calls w' = [(0, 1, [added]); (1, 2, [added])]
  /\ ui w'
     = set_projectInput (fun _ => mkProjectInput [] [] [])
         (ProjectList_listener unrounded_toString 1 2 (take 3 (heap w'))
            (ProjectList_listener unrounded_toString 0 1 (take 2 (heap w'))
               (ui w)))
  /\ List.map assignedProjects (projectLists (ui w')) = [[added]; []].
Proof.
  intros w w' added.
  assert (WF : well_formed w) by (unfold well_formed; cbn; lia).
  assert (A : fst (gatherUserInput unrounded_toString unrounded_ToNumber w)
              = Some (js "Build API", js "Implement REST endpoints", ofZ 3))
    by reflexivity.
  split; [split; [exact WF | exact A] |].
  destruct (submit_accepted_adds_and_clears unrounded_toString
              unrounded_ToNumber w _ _ _ WF A)
    as (Hs & _ & _ & _ & Hf & Hc & _ & _ & Hcs & Hu).
  split; [exact Hs |]. split; [exact Hf |]. split; [exact Hc |].
  split; [exact Hcs |]. split; [exact Hu | reflexivity].
Defined.

Lemma submit_twice_adds_once_witness :
  let w :=
    runs unrounded_toString unrounded_ToNumber
      [Type_title (js "Build API");
       Type_description (js "Implement REST endpoints");
       Type_people (js "3")]
      (main unrounded_toString (fun _ => 0%Q)) in
  let w1 := exec (submitHandler unrounded_toString unrounded_ToNumber) w in
  let w2 := exec (submitHandler unrounded_toString unrounded_ToNumber) w1 in
  fst (gatherUserInput unrounded_toString unrounded_ToNumber w)
  = Some (js "Build API", js "Implement REST endpoints", ofZ 3)
  /\ w2 = exec (alert (js "Invalid input, please try again")) w1
  /\ stored w2 = stored w1
  /\ calls w2 = calls w1.
Proof.
  intros w w1 w2. split; [reflexivity |].
  apply (submit_twice_adds_once unrounded_toString unrounded_ToNumber w
           (js "Build API") (js "Implement REST endpoints") (ofZ 3)).
  reflexivity.
Defined.

Lemma page_lists_follow_store_witness :
  let actions :=
    [Type_title (js "Build API");
     Type_description (js "Implement REST endpoints");
     Type_people (js "3"); Submit;
     DragOver 1 (mkDragEvent
                   (Some (mkDataTransfer [(js "text/plain", js "0")]
                            (js "move"))));
     Drop 1 (mkDragEvent None); Submit] in
  quiet actions = true
  /\ in_step unrounded_toString
       (runs unrounded_toString unrounded_ToNumber actions
          (main unrounded_toString (fun _ => 0%Q))).
Proof.
  intros actions. split; [reflexivity |].
  apply (page_lists_follow_store unrounded_toString unrounded_ToNumber).
  reflexivity.
Defined.

Lemma page_alerts_are_the_message_witness :
  let actions := [Submit; Type_title (js "Build API"); Submit] in
  quiet actions = true
  /\ Forall (fun m => m = js "Invalid input, please try again")
       (alerts (ui (runs unrounded_toString unrounded_ToNumber actions
                      (main unrounded_toString (fun _ => 0%Q)))))
  /\ List.length
       (alerts (ui (runs unrounded_toString unrounded_ToNumber actions
                      (main unrounded_toString (fun _ => 0%Q))))) = 2.
Proof.
  intros actions. split; [reflexivity |]. split; [| reflexivity].
  apply (page_alerts_are_the_message unrounded_toString unrounded_ToNumber).
  reflexivity.
Defined.

Lemma identifiers_are_the_draws_witness :
  let typing :=
    [Type_title (js "Build API");
     Type_description (js "Implement REST endpoints");
     Type_people (js "3")] in
  let w :=
    runs unrounded_toString unrounded_ToNumber
      (typing ++ [Submit] ++ typing ++ [Submit])
      (main unrounded_toString (fun k => inject_Z (Z.of_nat k))) in
  reachable unrounded_toString unrounded_ToNumber w
  /\ drawn w = 2
  /\ List.map id (stored w) = [js "0"; js "1"]
  /\ (forall i p, stored w !! i = Some p ->
        id p = toString unrounded_toString (Fin (entropy w i))).
Proof.
  intros typing w.
  assert (R : reachable unrounded_toString unrounded_ToNumber w).
  { unfold w, typing, runs; cbn [fold_left app].
    repeat apply reachable_run. apply reachable_main. }
  split; [exact R |]. split; [reflexivity |]. split; [reflexivity |].
  apply (identifiers_are_the_draws unrounded_toString unrounded_ToNumber w R).
Defined.

Lemma dragging_changes_only_the_mark_witness :
  let over :=
    DragOver 0 (mkDragEvent
                  (Some (mkDataTransfer [(js "text/plain", js "0")]
                           (js "move")))) in
  let w := main unrounded_toString (fun _ => 0%Q) in
  let w' := exec (run unrounded_toString unrounded_ToNumber over) w in
  drag_action over = true
  /\ List.map droppable (projectLists (ui w')) = [true; false]
  /\ heap w' = heap w
  /\ projectState w' = projectState w
  /\ List.map unmarked (projectLists (ui w'))
     = List.map unmarked (projectLists (ui w)).
Proof.
  intros over w w'. split; [reflexivity |]. split; [reflexivity |].
  destruct (dragging_changes_only_the_mark unrounded_toString
              unrounded_ToNumber over w eq_refl)
    as (Hh & Hp & _ & _ & _ & _ & Hl).
  split; [exact Hh |]. split; [exact Hp | exact Hl].
Defined.

Lemma dragStart_then_dragOver_witness :
  let item :=
    new_ProjectItem unrounded_toString
      (mkProject (js "0") (js "Build API") (js "Implement REST endpoints")
         (ofZ 3) Active) in
  let both :=
    mkDataTransfer
      [(js "text/plain", js "old"); (js "text/uri-list", js "about:blank")]
      (js "none") in
  exists d' : DataTransfer,
    dragStartHandler item (mkDragEvent (Some both))
    = Some (mkDragEvent (Some d'))
    /\ items d'
       = [(js "text/uri-list", js "about:blank"); (js "text/plain", js "0")]
    /\ In (js "text/plain", js "0") (items d')
    /\ In (js "text/uri-list", js "about:blank") (items d')
    /\ forall w, exec (dragOverHandler 0 (mkDragEvent (Some d'))) w = w.
Proof.
  intros item both.
  destruct (dragStart_then_dragOver item both)
    as (_ & d' & E & _ & Hitems & Hid & Hother & Hover).
  exists d'. split; [exact E |]. split; [exact Hitems |].
  split; [now apply Hid |].
  split; [apply Hother; [discriminate | right; now left] |].
  intros w. apply (Hover 0 w).
Defined.

Lemma typed_project_is_shown_witness :
  let w := main unrounded_toString (fun _ => 0%Q) in
  let typed :=
    runs unrounded_toString unrounded_ToNumber
      [Type_title (js "Build API");
       Type_description (js "Implement REST endpoints");
       Type_people (js "3")] w in
  let w' := exec (submitHandler unrounded_toString unrounded_ToNumber) typed in
  let added :=
    mkProject (js "0") (js "Build API") (js "Implement REST endpoints")
      (ofZ 3) Active in
  (well_formed w /\ page_shape unrounded_toString w)
  /\ stored w' = [added]
  /\ exists activeList finishedList earlier shown,
       projectLists (ui w') = [activeList; finishedList]
       /\ listEl activeList = earlier ++ [shown]
       /\ project shown = added
       /\ h3_textContent shown = js "3 Persons assigned".
Proof.
  intros w typed w' added.
  assert (WF : well_formed w) by (unfold well_formed; cbn; lia).
  assert (PS : page_shape unrounded_toString w).
  { split; [reflexivity |].
    exists (mkProjectList active [] [] false),
           (mkProjectList finished [] [] false).
    repeat split. }
  split; [split; [exact WF | exact PS] |].
  destruct (typed_project_is_shown unrounded_toString unrounded_ToNumber
              w (js "Build API") (js "Implement REST endpoints") 3%Z
              WF PS eq_refl eq_refl)
    as (Hs & _ & _ & a & f & earlier & shown & Hl & He & Hp & _ & Hh & _).
  { unfold js; cbn; lia. }
  { lia. }
  split; [exact Hs |].
  exists a, f, earlier, shown.
  split; [exact Hl |]. split; [exact He |]. split; [exact Hp | exact Hh].
Defined.
